(** * TLS reconciliation of the OpenSearch operator

    A shallow embedding of [controllers/tlsController.go]
    ([TlsReconciler.Reconcile], [TlsReconciler.HandleInterface], [mount])
    together with theorems about the secrets it fetches and creates and
    about the volumes, mounts and configuration entries it hands to the
    cluster builder.

    The Kubernetes client, the [pkg/tls] certificate library and the
    logger are collaborators of the reconciler.  Their calls are threaded
    through an explicit world state and recorded, in program order, in a
    call log, so that statements such as "no secret is created" or "the CA
    secret is created before the node secret" are statements about that
    log. *)

From stdpp Require Import gmap strings list fin_maps.
From Stdlib Require Import Ascii.

(** ** Data model *)

(** A Go [error] value, identified by its message. *)
Definition error : Type := string.

(** [client.ObjectKey{Name, Namespace}]. *)
Record ObjectKey : Type := mkObjectKey {
  key_Name : string;
  key_Namespace : string
}.

(** [corev1.Secret]: the object name, its namespace and the [Data] map
    ([map[string][]byte]). *)
Record Secret : Type := mkSecret {
  sec_Name : string;
  sec_Namespace : string;
  sec_Data : gmap string (list Byte.byte)
}.

(** [corev1.Volume] with a [Secret] volume source. *)
Record Volume : Type := mkVolume {
  vol_Name : string;
  vol_SecretName : string
}.

(** [corev1.VolumeMount]; an unset [SubPath] is Go's zero value, the
    empty string. *)
Record VolumeMount : Type := mkVolumeMount {
  vm_Name : string;
  vm_MountPath : string;
  vm_SubPath : string
}.

(** [opsterv1.TlsSecret]: [Key] is a [*string]. *)
Record TlsSecret : Type := mkTlsSecret {
  SecretName : string;
  Key : option string
}.

(** [opsterv1.TlsInterfaceConfig]: the three secret references are
    pointers and may be nil. *)
Record TlsInterfaceConfig : Type := mkTlsInterfaceConfig {
  Generate : bool;
  CaSecret : option TlsSecret;
  CertSecret : option TlsSecret;
  KeySecret : option TlsSecret
}.

(** [Spec.Security.Tls]. *)
Record TlsConfig : Type := mkTlsConfig {
  Transport : option TlsInterfaceConfig;
  Http : option TlsInterfaceConfig;
  NodesDn : list string
}.

(** [Spec.Security]. *)
Record SecuritySpec : Type := mkSecuritySpec {
  Tls : option TlsConfig
}.

(** [Spec.General]. *)
Record GeneralSpec : Type := mkGeneralSpec {
  ClusterName : string;
  ServiceName : string
}.

Record ClusterSpec : Type := mkClusterSpec {
  General : GeneralSpec;
  Security : option SecuritySpec
}.

(** [opsterv1.OpenSearchCluster]: the resource's own metadata name and
    namespace, and its spec. *)
Record OpenSearchCluster : Type := mkOpenSearchCluster {
  Name : string;
  Namespace : string;
  Spec : ClusterSpec
}.

(** [ControllerContext], the accumulator handed to the cluster builder. *)
Record ControllerContext : Type := mkControllerContext {
  Volumes : list Volume;
  VolumeMounts : list VolumeMount;
  OpenSearchConfig : gmap string string
}.

Definition emptyContext : ControllerContext :=
  {| Volumes := []; VolumeMounts := []; OpenSearchConfig := ∅ |}.

(** Modelled from the spec: [ControllerContext.AddConfig] is declared
    outside the files at hand; the configuration is a mapping from key to
    string value in which the last write wins. *)
Definition AddConfig (key value : string) (c : ControllerContext) : ControllerContext :=
  {| Volumes := Volumes c;
     VolumeMounts := VolumeMounts c;
     OpenSearchConfig := <[key := value]> (OpenSearchConfig c) |}.

(** ** Collaborators *)

(** The operations the reconciler consumes.  [W] is the state of the
    outside world (the secret store, the entropy behind key generation);
    [Cert] is [tls.Cert].  Every call that can fail returns the Go error
    on the left. *)
Class Collaborators (W Cert : Type) : Type := {
  client_Get : ObjectKey -> W -> W * (error + Secret);
  client_Create : Secret -> W -> W * option error;
  tls_GenerateCA : string -> W -> W * (error + Cert);
  tls_CAFromSecret : gmap string (list Byte.byte) -> Cert;
  tls_CreateAndSignCertificate :
    Cert -> string -> list string -> W -> W * (error + Cert);
  tls_SecretDataCA : Cert -> gmap string (list Byte.byte);
  tls_SecretData : Cert -> Cert -> gmap string (list Byte.byte)
}.

(** One entry of the call log. *)
Inductive Event (Cert : Type) : Type :=
| EGet (key : ObjectKey)
| ECreate (s : Secret)
| EGenerateCA (commonName : string)
| ESign (ca : Cert) (commonName : string) (dnsNames : list string)
| ELogInfo (msg : string) (keysAndValues : list (string * string))
| ELogError (err : error) (msg : string) (keysAndValues : list (string * string)).

Arguments EGet {Cert} key.
Arguments ECreate {Cert} s.
Arguments EGenerateCA {Cert} commonName.
Arguments ESign {Cert} ca commonName dnsNames.
Arguments ELogInfo {Cert} msg keysAndValues.
Arguments ELogError {Cert} err msg keysAndValues.

Definition is_store_call {Cert} (e : Event Cert) : bool :=
  match e with
  | EGet _ | ECreate _ => true
  | _ => false
  end.

(** ** The reconciler's state and its monad *)

Record State (W Cert : Type) : Type := mkState {
  world : W;
  ctx : ControllerContext;
  calls : list (Event Cert)
}.

Arguments mkState {W Cert} world ctx calls.
Arguments world {W Cert} s.
Arguments ctx {W Cert} s.
Arguments calls {W Cert} s.

(** A computation runs on a state and ends either with a Go error
    (left) or with a value (right); the state reached is kept in both
    cases. *)
Definition M (W Cert A : Type) : Type := State W Cert -> State W Cert * (error + A).

Definition ret {W Cert A} (a : A) : M W Cert A := fun st => (st, inr a).

Definition fail {W Cert A} (e : error) : M W Cert A := fun st => (st, inl e).

Definition bind {W Cert A B} (m : M W Cert A) (k : A -> M W Cert B) : M W Cert B :=
  fun st =>
    match m st with
    | (st', inl e) => (st', inl e)
    | (st', inr a) => k a st'
    end.

Notation "'let*' x ':=' m 'in' k" := (bind m (fun x => k))
  (at level 10, x name, m at level 100, k at level 200).
Notation "m ';;;' k" := (bind m (fun _ => k))
  (at level 100, k at level 200, right associativity).

Section Reconciler.

Context {W Cert : Type} `{!Collaborators W Cert}.

Definition record (e : Event Cert) : M W Cert unit :=
  fun st => ({| world := world st; ctx := ctx st; calls := calls st ++ [e] |}, inr tt).

(** Run a collaborator on the world and hand back its result. *)
Definition perform {A} (f : W -> W * A) : M W Cert A :=
  fun st =>
    let (w, a) := f (world st) in
    ({| world := w; ctx := ctx st; calls := calls st |}, inr a).

Definition modify (f : ControllerContext -> ControllerContext) : M W Cert unit :=
  fun st => ({| world := world st; ctx := f (ctx st); calls := calls st |}, inr tt).

(** [r.Get(context.TODO(), key, &obj)]: the error, or the object read. *)
Definition Get (key : ObjectKey) : M W Cert (error + Secret) :=
  record (EGet key);;; perform (client_Get key).

(** [r.Create(context.TODO(), &obj)]. *)
Definition Create (s : Secret) : M W Cert (option error) :=
  record (ECreate s);;; perform (client_Create s).

Definition GenerateCA (commonName : string) : M W Cert (error + Cert) :=
  record (EGenerateCA commonName);;; perform (tls_GenerateCA commonName).

Definition CreateAndSignCertificate (ca : Cert) (commonName : string)
    (dnsNames : list string) : M W Cert (error + Cert) :=
  record (ESign ca commonName dnsNames);;;
  perform (tls_CreateAndSignCertificate ca commonName dnsNames).

Definition LoggerInfo (msg : string) (kv : list (string * string)) : M W Cert unit :=
  record (ELogInfo msg kv).

Definition LoggerError (err : error) (msg : string) (kv : list (string * string)) : M W Cert unit :=
  record (ELogError err msg kv).

Definition appendVolume (v : Volume) : M W Cert unit :=
  modify (fun c => {| Volumes := Volumes c ++ [v];
                      VolumeMounts := VolumeMounts c;
                      OpenSearchConfig := OpenSearchConfig c |}).

Definition appendVolumeMount (m : VolumeMount) : M W Cert unit :=
  modify (fun c => {| Volumes := Volumes c;
                      VolumeMounts := VolumeMounts c ++ [m];
                      OpenSearchConfig := OpenSearchConfig c |}).

Definition addConfig (key value : string) : M W Cert unit :=
  modify (AddConfig key value).

(** ** [mount] (tlsController.go, lines 132-141) *)
Definition mount (interfaceName name filename : string) (secret : TlsSecret) : M W Cert unit :=
  let volume := {| vol_Name := interfaceName +:+ "-" +:+ name;
                   vol_SecretName := SecretName secret |} in
  appendVolume volume;;;
  let secretKey := match Key secret with
                   | Some k => k
                   | None => filename
                   end in
  let mount := {| vm_Name := interfaceName +:+ "-" +:+ name;
                  vm_MountPath := "/usr/share/opensearch/config/tls-" +:+ interfaceName
                                    +:+ "/" +:+ filename;
                  vm_SubPath := secretKey |} in
  appendVolumeMount mount.

(** ** [HandleInterface] (lines 48-130) *)

(** Lines 59-76: fetch the CA secret; on any fetch error generate a CA
    and store it, else read the CA back from the secret. *)
Definition HandleInterface_ca (name clusterName namespace ca_secret_name : string)
    : M W Cert Cert :=
  let* got := Get {| key_Name := ca_secret_name; key_Namespace := namespace |} in
  match got with
  | inl _ =>
      let* gen := GenerateCA clusterName in
      match gen with
      | inl err =>
          LoggerError err "Failed to create CA" [("interface", name)];;;
          fail err
      | inr ca =>
          let caSecret := {| sec_Name := ca_secret_name;
                             sec_Namespace := namespace;
                             sec_Data := tls_SecretDataCA ca |} in
          let* created := Create caSecret in
          match created with
          | Some err =>
              LoggerError err "Failed to store CA in secret" [("interface", name)];;;
              fail err
          | None => ret ca
          end
      end
  | inr caSecret => ret (tls_CAFromSecret (sec_Data caSecret))
  end.

(** The DNS names of lines 82-87. *)
Definition dnsNames (clusterName namespace : string) : list string :=
  [ clusterName;
    clusterName +:+ "." +:+ namespace;
    clusterName +:+ "." +:+ namespace +:+ ".svc";
    clusterName +:+ "." +:+ namespace +:+ ".svc.cluster.local" ].

(** Lines 78-98: fetch the node secret; on any fetch error sign a node
    certificate and store it. *)
Definition HandleInterface_node (name clusterName namespace node_secret_name : string)
    (ca : Cert) : M W Cert unit :=
  let* got := Get {| key_Name := node_secret_name; key_Namespace := namespace |} in
  match got with
  | inl _ =>
      let* signed := CreateAndSignCertificate ca clusterName (dnsNames clusterName namespace) in
      match signed with
      | inl err =>
          LoggerError err "Failed to create node certificate" [("interface", name)];;;
          fail err
      | inr nodeCert =>
          let nodeSecret := {| sec_Name := node_secret_name;
                               sec_Namespace := namespace;
                               sec_Data := tls_SecretData nodeCert ca |} in
          let* created := Create nodeSecret in
          match created with
          | Some err =>
              LoggerError err "Failed to store node certificate in secret"
                [("interface", name)];;;
              fail err
          | None => ret tt
          end
      end
  | inr _ => ret tt
  end.

(** Lines 117-128: the entries added to opensearch.yml. *)
Definition HandleInterface_config (name : string) : M W Cert unit :=
  if String.eqb name "transport" then
    addConfig "plugins.security.ssl.transport.pemcert_filepath" "tls-transport/tls.crt";;;
    addConfig "plugins.security.ssl.transport.pemkey_filepath" "tls-transport/tls.key";;;
    addConfig "plugins.security.ssl.transport.pemtrustedcas_filepath" "tls-transport/ca.crt";;;
    addConfig "plugins.security.ssl.transport.enforce_hostname_verification" "false"
  else if String.eqb name "http" then
    addConfig "plugins.security.ssl.http.enabled" "true";;;
    addConfig "plugins.security.ssl.http.pemcert_filepath" "tls-http/tls.crt";;;
    addConfig "plugins.security.ssl.http.pemkey_filepath" "tls-http/tls.key";;;
    addConfig "plugins.security.ssl.http.pemtrustedcas_filepath" "tls-http/ca.crt"
  else ret tt.

(** The Go function takes [nodesDn *[]string] and returns an [error];
    here the list comes in as an argument and the list to continue with
    is the value of a run that returns nil. *)
Definition HandleInterface (Instance : OpenSearchCluster) (name : string)
    (config : option TlsInterfaceConfig) (nodesDn : list string)
    : M W Cert (list string) :=
  match config with
  | None => ret nodesDn
  | Some config =>
      let namespace := ClusterName (General (Spec Instance)) in
      let clusterName := ClusterName (General (Spec Instance)) in
      let ca_secret_name := clusterName +:+ "-ca" in
      let node_secret_name := clusterName +:+ "-" +:+ name +:+ "-cert" in
      let* nodesDn :=
        if Generate config then
          LoggerInfo "Generating certificates" [("interface", name)];;;
          let* ca := HandleInterface_ca name clusterName namespace ca_secret_name in
          HandleInterface_node name clusterName namespace node_secret_name ca;;;
          appendVolume {| vol_Name := name +:+ "-cert";
                          vol_SecretName := node_secret_name |};;;
          appendVolumeMount {| vm_Name := name +:+ "-cert";
                               vm_MountPath := "/usr/share/opensearch/config/tls-" +:+ name;
                               vm_SubPath := EmptyString |};;;
          if String.eqb name "transport"
          then ret (nodesDn ++ ["CN=" +:+ clusterName])
          else ret nodesDn
        else
          match CaSecret config, CertSecret config, KeySecret config with
          | Some caSecret, Some certSecret, Some keySecret =>
              mount name "ca" "ca.crt" caSecret;;;
              mount name "key" "tls.key" keySecret;;;
              mount name "cert" "tls.crt" certSecret;;;
              ret nodesDn
          | _, _, _ =>
              let err := "missing secret in spec" in
              LoggerError err ("Not all secrets for " +:+ name +:+ " provided") [];;;
              fail err
          end
      in
      HandleInterface_config name;;;
      ret nodesDn
  end.

(** ** [Reconcile] (lines 25-46) *)

(** The double quote character. *)
Definition dq : string := String (ascii_of_nat 34) EmptyString.

(** [fmt.Sprintf("[\"%s\"]", strings.Join(nodesDn, "\",\""))]. *)
Definition formatNodesDn (nodesDn : list string) : string :=
  let dnList := String.concat (dq +:+ "," +:+ dq) nodesDn in
  "[" +:+ dq +:+ dnList +:+ dq +:+ "]".

(** The [*opsterv1.ComponentStatus] result is nil on every return path;
    the embedding keeps the error. *)
Definition Reconcile (Instance : OpenSearchCluster) : M W Cert unit :=
  match
    match Security (Spec Instance) with
    | None => None
    | Some security => Tls security
    end
  with
  | None =>
      LoggerInfo "No security specified. Not doing anything" [];;;
      ret tt
  | Some tlsConfig =>
      let nodesDn := NodesDn tlsConfig in
      let* nodesDn := HandleInterface Instance "transport" (Transport tlsConfig) nodesDn in
      let* nodesDn := HandleInterface Instance "http" (Http tlsConfig) nodesDn in
      (if Nat.ltb 0 (List.length nodesDn)
       then addConfig "plugins.security.nodes_dn" (formatNodesDn nodesDn)
       else ret tt);;;
      (* Temporary until securityconfig controller is working *)
      addConfig "plugins.security.allow_unsafe_democertificates" "true";;;
      ret tt
  end.

End Reconciler.

(** ** Assumptions on the store

    A key is present in a world when fetching it succeeds and leaves the
    world as it is. *)
Definition present {W Cert} `{!Collaborators W Cert} (key : ObjectKey) (w : W) : Prop :=
  exists s, client_Get key w = (w, inr s).

Definition keyOf (s : Secret) : ObjectKey :=
  {| key_Name := sec_Name s; key_Namespace := sec_Namespace s |}.

(** The keys of the two secrets of a generated interface: their names
    are those of lines 54 and 55, their namespace that of line 52. *)
Definition caKey (Instance : OpenSearchCluster) : ObjectKey :=
  {| key_Name := ClusterName (General (Spec Instance)) +:+ "-ca";
     key_Namespace := ClusterName (General (Spec Instance)) |}.

Definition nodeKey (Instance : OpenSearchCluster) (name : string) : ObjectKey :=
  {| key_Name := ClusterName (General (Spec Instance)) +:+ "-" +:+ name +:+ "-cert";
     key_Namespace := ClusterName (General (Spec Instance)) |}.

(** A store that keeps what it holds: a secret that was fetched or
    created can be fetched from then on, whatever else is fetched,
    created, generated or signed in between. *)
Class StoreLaws (W Cert : Type) `{!Collaborators W Cert} : Prop := {
  get_found_present : forall key w w' s,
    client_Get key w = (w', inr s) -> present key w';
  create_ok_present : forall s w w',
    client_Create s w = (w', None) -> present (keyOf s) w';
  get_preserves : forall key key' w w' r,
    present key w -> client_Get key' w = (w', r) -> present key w';
  create_preserves : forall key s w w' r,
    present key w -> client_Create s w = (w', r) -> present key w';
  generate_preserves : forall key cn w w' r,
    present key w -> tls_GenerateCA cn w = (w', r) -> present key w';
  sign_preserves : forall key ca cn dns w w' r,
    present key w -> tls_CreateAndSignCertificate ca cn dns w = (w', r) -> present key w'
}.

(** [strings.Contains(err, name)], used to say that an error message
    names an interface. *)
Definition mentions (err name : string) : bool :=
  match String.index 0 name err with
  | Some _ => true
  | None => false
  end.

(** Entries of the call log that leave the store as it is: fetches and
    log lines. *)
Definition is_read_only {Cert} (e : Event Cert) : bool :=
  match e with
  | EGet _ | ELogInfo _ _ => true
  | _ => false
  end.

(** The names [HandleInterface] gives the two secrets of the interface
    [name] (lines 54-55). *)
Definition interfaceSecretNames (clusterName name : string) : list string :=
  [ clusterName +:+ "-ca"; clusterName +:+ "-" +:+ name +:+ "-cert" ].

(** The names of all the secrets of a pass: the CA and the node secrets
    of the two interfaces [Reconcile] handles (lines 32 and 35). *)
Definition clusterSecretNames (clusterName : string) : list string :=
  [ clusterName +:+ "-ca";
    clusterName +:+ "-transport-cert";
    clusterName +:+ "-http-cert" ].

(** What an entry of the call log says about names: a fetch or a create
    is addressed to the namespace [clusterName] and to one of [names], a
    CA is generated and a certificate signed for the common name
    [clusterName], and the DNS names signed are the four built from
    [clusterName] twice. *)
Definition addressed_by {Cert} (clusterName : string) (names : list string)
    (e : Event Cert) : Prop :=
  match e with
  | EGet key => key_Namespace key = clusterName /\ key_Name key ∈ names
  | ECreate s => sec_Namespace s = clusterName /\ sec_Name s ∈ names
  | EGenerateCA commonName => commonName = clusterName
  | ESign _ commonName dns =>
      commonName = clusterName /\ dns = dnsNames clusterName clusterName
  | ELogInfo _ _ | ELogError _ _ _ => True
  end.

(** An entry of the call log of a pass is addressed by the cluster name
    alone: namespace, secret name, common name and DNS names are all
    built from [clusterName]. *)
Definition in_cluster_namespace {Cert} (clusterName : string) (e : Event Cert) : Prop :=
  addressed_by clusterName (clusterSecretNames clusterName) e.


(** The calls lines 78-98 make for the node secret named [nodeName]:
    its fetch, the signing of a certificate, its create. *)
Definition is_node_step {Cert} (nodeName : string) (e : Event Cert) : bool :=
  match e with
  | EGet key => String.eqb (key_Name key) nodeName
  | ECreate s => String.eqb (sec_Name s) nodeName
  | ESign _ _ _ => true
  | _ => false
  end.

(** In the log [l] of a run that found no CA secret and went on from
    the world [w]: every call for the node secret [nodeName] comes after
    a create of the CA secret [<clusterName>-ca], the CA stored is the one
    generated from [w], and the store answered that create with
    success. *)
Definition created_before {W Cert} `{!Collaborators W Cert}
    (clusterName namespace nodeName : string) (w : W) (l : list (Event Cert)) : Prop :=
  forall l1 e l2,
    l = l1 ++ e :: l2 ->
    is_node_step nodeName e = true ->
    exists w2 ca w3,
      let caSecret := {| sec_Name := clusterName +:+ "-ca";
                         sec_Namespace := namespace;
                         sec_Data := tls_SecretDataCA ca |} in
      tls_GenerateCA clusterName w = (w2, inr ca) /\
      client_Create caSecret w2 = (w3, None) /\
      ECreate caSecret ∈ l1.

(** ** What one interface contributes

    The entries [HandleInterface] writes for an interface (lines
    117-128) and the volume names it appends (lines 100 and 113-115,
    133), as data, to state what a pass leaves in the build context. *)
Definition interfaceConfig (name : string) : list (string * string) :=
  if String.eqb name "transport" then
    [ ("plugins.security.ssl.transport.pemcert_filepath", "tls-transport/tls.crt");
      ("plugins.security.ssl.transport.pemkey_filepath", "tls-transport/tls.key");
      ("plugins.security.ssl.transport.pemtrustedcas_filepath", "tls-transport/ca.crt");
      ("plugins.security.ssl.transport.enforce_hostname_verification", "false") ]
  else if String.eqb name "http" then
    [ ("plugins.security.ssl.http.enabled", "true");
      ("plugins.security.ssl.http.pemcert_filepath", "tls-http/tls.crt");
      ("plugins.security.ssl.http.pemkey_filepath", "tls-http/tls.key");
      ("plugins.security.ssl.http.pemtrustedcas_filepath", "tls-http/ca.crt") ]
  else [].

Definition interfaceVolumeNames (name : string) (config : TlsInterfaceConfig) : list string :=
  if Generate config then [name +:+ "-cert"]
  else [name +:+ "-ca"; name +:+ "-key"; name +:+ "-cert"].

(** Entries of the call log that are log lines. *)
Definition is_log {Cert} (e : Event Cert) : bool :=
  match e with
  | ELogInfo _ _ | ELogError _ _ _ => true
  | _ => false
  end.

Definition is_generate_ca {Cert} (e : Event Cert) : bool :=
  match e with
  | EGenerateCA _ => true
  | _ => false
  end.

(** Every mount is the mount of the volume declared at the same
    position. *)
Definition mounts_match_volumes (c : ControllerContext) : Prop :=
  map vm_Name (VolumeMounts c) = map vol_Name (Volumes c).

(** * The dashboards reconciler

    A shallow embedding of [DashboardReconciler.Reconcile]
    ([controllers/dashboardController.go], lines 32-89): for the
    dashboards deployment, config map and service in turn, fetch the
    object and, when the fetch fails, build and create it.  The client,
    the builders of [pkg/builders] and [errors.IsAlreadyExists] are
    collaborators; client calls and printed lines are recorded in
    program order. *)
Module Dashboard.

(** The type of the object a [Get] is asked to fill. *)
Inductive Kind : Type := Deployment | ConfigMap | Service.

(** [Obj] stands for the objects the builders return; the reconciler
    reads their [Name] only.  The object a successful [Get] fills is
    never used, so a fetch answers with its error alone. *)
Class Collaborators (W Obj : Type) : Type := {
  client_Get : Kind -> ObjectKey -> W -> W * option error;
  client_Create : Obj -> W -> W * option error;
  IsAlreadyExists : error -> bool;
  NewDashboardsDeploymentForCR : OpenSearchCluster -> Obj;
  NewDashboardsConfigMapForCR : OpenSearchCluster -> Obj;
  NewDashboardsSvcForCr : OpenSearchCluster -> Obj;
  obj_Name : Obj -> string
}.

Inductive Event (Obj : Type) : Type :=
| EGet (kind : Kind) (key : ObjectKey)
| ECreate (obj : Obj)
| EPrintln (args : list string).

Arguments EGet {Obj} kind key.
Arguments ECreate {Obj} obj.
Arguments EPrintln {Obj} args.


Definition fetches {Obj} (l : list (Event Obj)) : list (Kind * ObjectKey) :=
  omap (fun e => match e with EGet kind key => Some (kind, key) | _ => None end) l.

Record State (W Obj : Type) : Type := mkState {
  world : W;
  calls : list (Event Obj)
}.

Arguments mkState {W Obj} world calls.
Arguments world {W Obj} s.
Arguments calls {W Obj} s.

Definition D (W Obj A : Type) : Type := State W Obj -> State W Obj * (error + A).

Definition ret {W Obj A} (a : A) : D W Obj A := fun st => (st, inr a).

Definition fail {W Obj A} (e : error) : D W Obj A := fun st => (st, inl e).

Definition bind {W Obj A B} (m : D W Obj A) (k : A -> D W Obj B) : D W Obj B :=
  fun st =>
    match m st with
    | (st', inl e) => (st', inl e)
    | (st', inr a) => k a st'
    end.

Local Notation "m >>= k" := (bind m k) (at level 60, right associativity).
Local Notation "m >> k" := (bind m (fun _ => k)) (at level 60, right associativity).

Section Reconciler.

Context {W Obj : Type} `{!Collaborators W Obj}.

Definition record (e : Event Obj) : D W Obj unit :=
  fun st => ({| world := world st; calls := calls st ++ [e] |}, inr tt).

Definition perform {A} (f : W -> W * A) : D W Obj A :=
  fun st =>
    let (w, a) := f (world st) in
    ({| world := w; calls := calls st |}, inr a).

(** [r.Get(context.TODO(), key, &obj)]. *)
Definition Get (kind : Kind) (key : ObjectKey) : D W Obj (option error) :=
  record (EGet kind key) >> perform (client_Get kind key).

(** [r.Create(context.TODO(), obj)]. *)
Definition Create (obj : Obj) : D W Obj (option error) :=
  record (ECreate obj) >> perform (client_Create obj).

(** [fmt.Println(args...)]; an error argument prints as its message. *)
Definition Println (args : list string) : D W Obj unit :=
  record (EPrintln args).

(** Lines 35-51. *)
Definition Reconcile_deployment (Instance : OpenSearchCluster) : D W Obj unit :=
  let deployName := ClusterName (General (Spec Instance)) +:+ "-dashboards" in
  let deployNamespace := ClusterName (General (Spec Instance)) in
  Get Deployment {| key_Name := deployName; key_Namespace := deployNamespace |} >>= fun err =>
  match err with
  | Some _ =>
      let dashboards_deployment := NewDashboardsDeploymentForCR Instance in
      Create dashboards_deployment >>= fun err =>
      match err with
      | Some err =>
          if negb (IsAlreadyExists err) then
            Println [err; "Cannot create Opensearch-Dashboard Deployment "
                            +:+ obj_Name dashboards_deployment] >>
            fail err
          else ret tt
      | None => ret tt
      end >>
      Println ["Opensearch-Dashboard Deployment Created successfully - "; "name : ";
               obj_Name dashboards_deployment]
  | None => ret tt
  end.

(** Lines 53-69. *)
Definition Reconcile_configmap (Instance : OpenSearchCluster) : D W Obj unit :=
  let deployNamespace := ClusterName (General (Spec Instance)) in
  let cmName := "opensearch-dashboards" in
  Get ConfigMap {| key_Name := cmName; key_Namespace := deployNamespace |} >>= fun err =>
  match err with
  | Some _ =>
      let dashboards_cm := NewDashboardsConfigMapForCR Instance in
      Create dashboards_cm >>= fun err =>
      match err with
      | Some err =>
          if negb (IsAlreadyExists err) then
            Println [err; "Cannot create Opensearch-Dashboard Configmap "
                            +:+ obj_Name dashboards_cm] >>
            fail err
          else ret tt
      | None => ret tt
      end >>
      Println ["Opensearch-Dashboard Cm Created successfully"; "name";
               obj_Name dashboards_cm]
  | None => ret tt
  end.

(** Lines 71-86. *)
Definition Reconcile_service (Instance : OpenSearchCluster) : D W Obj unit :=
  let deployNamespace := ClusterName (General (Spec Instance)) in
  let serviceName := ServiceName (General (Spec Instance)) +:+ "-dash-svc" in
  Get Service {| key_Name := serviceName; key_Namespace := deployNamespace |} >>= fun err =>
  match err with
  | Some _ =>
      let dashboards_svc := NewDashboardsSvcForCr Instance in
      Create dashboards_svc >>= fun err =>
      match err with
      | Some err =>
          if negb (IsAlreadyExists err) then
            Println [err; "Cannot create Opensearch-Dashboard service "
                            +:+ obj_Name dashboards_svc] >>
            fail err
          else ret tt
      | None => ret tt
      end >>
      Println ["Opensearch-Dashboard service Created successfully"; "name";
               obj_Name dashboards_svc]
  | None => ret tt
  end.

(** [Reconcile] (lines 32-89).  The [ctrl.Result] returned is empty on
    every path; the embedding keeps the error.  The context and the
    request are not read. *)
Definition Reconcile (Instance : OpenSearchCluster) : D W Obj unit :=
  Reconcile_deployment Instance >>
  Reconcile_configmap Instance >>
  Reconcile_service Instance >>
  ret tt.

(** The three keys fetched, in the order of the source. *)
Definition keys (Instance : OpenSearchCluster) : list (Kind * ObjectKey) :=
  let deployNamespace := ClusterName (General (Spec Instance)) in
  [ (Deployment, {| key_Name := ClusterName (General (Spec Instance)) +:+ "-dashboards";
                    key_Namespace := deployNamespace |});
    (ConfigMap, {| key_Name := "opensearch-dashboards"; key_Namespace := deployNamespace |});
    (Service, {| key_Name := ServiceName (General (Spec Instance)) +:+ "-dash-svc";
                 key_Namespace := deployNamespace |}) ].

(** The three objects built, in the order of the source. *)
Definition objects (Instance : OpenSearchCluster) : list Obj :=
  [ NewDashboardsDeploymentForCR Instance;
    NewDashboardsConfigMapForCR Instance;
    NewDashboardsSvcForCr Instance ].

End Reconciler.

(** A key is present in a world when fetching it succeeds and leaves the
    world as it is. *)
Definition present {W Obj} `{!Collaborators W Obj} (kind : Kind) (key : ObjectKey)
    (w : W) : Prop :=
  client_Get kind key w = (w, None).

(** A store that keeps what it holds, with builders that build each
    object under the key it is fetched by: an object that was fetched,
    created, or found to exist already by a create, can be fetched from
    then on. *)
Class StoreLaws (W Obj : Type) `{!Collaborators W Obj} : Prop := {
  fetched_present : forall kind key w w',
    client_Get kind key w = (w', None) -> present kind key w';
  created_present : forall Instance i kind key obj w w' r,
    keys Instance !! i = Some (kind, key) ->
    objects Instance !! i = Some obj ->
    client_Create obj w = (w', r) ->
    match r with
    | None => True
    | Some err => IsAlreadyExists err = true
    end ->
    present kind key w';
  get_preserves : forall kind key kind' key' w w' r,
    present kind key w -> client_Get kind' key' w = (w', r) -> present kind key w';
  create_preserves : forall kind key obj w w' r,
    present kind key w -> client_Create obj w = (w', r) -> present kind key w'
}.

(** ** A reference world for the dashboards

    Objects are their kind, name and namespace; the store is the list of
    the objects created so far. *)
Module ListStore.

Record Obj : Type := mkObj {
  kind : Kind;
  name : string;
  namespace : string
}.

Definition same (a b : Obj) : bool :=
  match kind a, kind b with
  | Deployment, Deployment | ConfigMap, ConfigMap | Service, Service =>
      String.eqb (name a) (name b) && String.eqb (namespace a) (namespace b)
  | _, _ => false
  end.

Definition stored (o : Obj) (w : list Obj) : bool := existsb (same o) w.

Definition get (k : Kind) (key : ObjectKey) (w : list Obj) : list Obj * option error :=
  if stored {| kind := k; name := key_Name key; namespace := key_Namespace key |} w
  then (w, None)
  else (w, Some "not found").

Definition create (o : Obj) (w : list Obj) : list Obj * option error :=
  if stored o w then (w, Some "already exists") else (o :: w, None).

#[global] Instance collaborators : Collaborators (list Obj) Obj := {|
  client_Get := get;
  client_Create := create;
  IsAlreadyExists := fun e => String.eqb e "already exists";
  NewDashboardsDeploymentForCR := fun Instance =>
    {| kind := Deployment;
       name := ClusterName (General (Spec Instance)) +:+ "-dashboards";
       namespace := ClusterName (General (Spec Instance)) |};
  NewDashboardsConfigMapForCR := fun Instance =>
    {| kind := ConfigMap;
       name := "opensearch-dashboards";
       namespace := ClusterName (General (Spec Instance)) |};
  NewDashboardsSvcForCr := fun Instance =>
    {| kind := Service;
       name := ServiceName (General (Spec Instance)) +:+ "-dash-svc";
       namespace := ClusterName (General (Spec Instance)) |};
  obj_Name := name
|}.

Definition start (w : list Obj) : State (list Obj) Obj :=
  {| world := w; calls := [] |}.

(** The cluster [demo], whose services are named [demo-svc]. *)
Definition demo : OpenSearchCluster :=
  {| Name := "demo";
     Namespace := "default";
     Spec := {| General := {| ClusterName := "demo"; ServiceName := "demo-svc" |};
                Security := None |} |}.


(** A world in which the three objects of [demo] exist. *)
Definition allThree : list Obj :=
  [ {| kind := Deployment; name := "demo-dashboards"; namespace := "demo" |};
    {| kind := ConfigMap; name := "opensearch-dashboards"; namespace := "demo" |};
    {| kind := Service; name := "demo-svc-dash-svc"; namespace := "demo" |} ].

(** The three objects the builders return for [demo]. *)
Definition demoDeployment : Obj :=
  {| kind := Deployment; name := "demo-dashboards"; namespace := "demo" |}.

Definition demoConfigMap : Obj :=
  {| kind := ConfigMap; name := "opensearch-dashboards"; namespace := "demo" |}.

Definition demoService : Obj :=
  {| kind := Service; name := "demo-svc-dash-svc"; namespace := "demo" |}.

End ListStore.

(** A world for the dashboards that holds nothing and runs out of
    quota: every fetch fails, and a create succeeds as long as the
    number of creations allowed is not spent. *)
Module QuotaWorld.

Definition get (k : Kind) (key : ObjectKey) (budget : nat) : nat * option error :=
  (budget, Some "not found").

Definition create (o : ListStore.Obj) (budget : nat) : nat * option error :=
  match budget with
  | 0 => (0, Some "quota exceeded")
  | S budget' => (budget', None)
  end.

#[global] Instance collaborators : Collaborators nat ListStore.Obj := {|
  client_Get := get;
  client_Create := create;
  IsAlreadyExists := fun e => String.eqb e "already exists";
  NewDashboardsDeploymentForCR := NewDashboardsDeploymentForCR (W := list ListStore.Obj);
  NewDashboardsConfigMapForCR := NewDashboardsConfigMapForCR (W := list ListStore.Obj);
  NewDashboardsSvcForCr := NewDashboardsSvcForCr (W := list ListStore.Obj);
  obj_Name := ListStore.name
|}.

Definition start (budget : nat) : State nat ListStore.Obj :=
  {| world := budget; calls := [] |}.

End QuotaWorld.

(** A store with a rival writer.  A fetch that finds nothing reports
    not-found, and by the time it returns the rival has created the
    object asked for: the create that follows answers already-exists.
    Creates are those of the list-backed store. *)
Module RivalStore.

Record World : Type := Racing { held : list ListStore.Obj }.

Definition get (k : Kind) (key : ObjectKey) (w : World) : World * option error :=
  let o := {| ListStore.kind := k;
              ListStore.name := key_Name key;
              ListStore.namespace := key_Namespace key |} in
  if ListStore.stored o (held w)
  then (w, None)
  else (Racing (o :: held w), Some "not found").

Definition create (o : ListStore.Obj) (w : World) : World * option error :=
  let (w', r) := ListStore.create o (held w) in
  (Racing w', r).

#[global] Instance collaborators : Collaborators World ListStore.Obj := {|
  client_Get := get;
  client_Create := create;
  IsAlreadyExists := fun e => String.eqb e "already exists";
  NewDashboardsDeploymentForCR := NewDashboardsDeploymentForCR (W := list ListStore.Obj);
  NewDashboardsConfigMapForCR := NewDashboardsConfigMapForCR (W := list ListStore.Obj);
  NewDashboardsSvcForCr := NewDashboardsSvcForCr (W := list ListStore.Obj);
  obj_Name := ListStore.name
|}.

Definition start (w : list ListStore.Obj) : State World ListStore.Obj :=
  {| world := Racing w; calls := [] |}.

End RivalStore.

End Dashboard.

(** ** A reference world: a map-backed secret store

    The store keeps secrets under (namespace, name); a fetch of an absent
    secret reports not-found, a create of a present one reports
    already-exists.  Certificates are deterministic stand-ins for the
    output of [pkg/tls]; they make the reconciler executable on concrete
    clusters. *)
Module MapStore.

Record Cert : Type := mkCert {
  certificate : list Byte.byte;
  privateKey : list Byte.byte
}.

Definition bytes (s : string) : list Byte.byte := String.list_byte_of_string s.

Definition storeKey (name namespace : string) : string * string := (namespace, name).

Definition get (key : ObjectKey) (w : gmap (string * string) Secret)
    : gmap (string * string) Secret * (error + Secret) :=
  match w !! storeKey (key_Name key) (key_Namespace key) with
  | Some s => (w, inr s)
  | None => (w, inl "not found")
  end.

Definition create (s : Secret) (w : gmap (string * string) Secret)
    : gmap (string * string) Secret * option error :=
  match w !! storeKey (sec_Name s) (sec_Namespace s) with
  | Some _ => (w, Some "already exists")
  | None => (<[storeKey (sec_Name s) (sec_Namespace s) := s]> w, None)
  end.

Definition generateCA (commonName : string) (w : gmap (string * string) Secret)
    : gmap (string * string) Secret * (error + Cert) :=
  (w, inr {| certificate := bytes ("ca-cert:" +:+ commonName);
             privateKey := bytes ("ca-key:" +:+ commonName) |}).

Definition caFromSecret (data : gmap string (list Byte.byte)) : Cert :=
  {| certificate := default [] (data !! "ca.crt");
     privateKey := default [] (data !! "ca.key") |}.

Definition createAndSignCertificate (ca : Cert) (commonName : string)
    (dnsNames : list string) (w : gmap (string * string) Secret)
    : gmap (string * string) Secret * (error + Cert) :=
  (w, inr {| certificate := bytes ("cert:" +:+ commonName +:+ ":"
                                     +:+ String.concat "," dnsNames);
             privateKey := bytes ("key:" +:+ commonName) |}).

Definition secretDataCA (ca : Cert) : gmap string (list Byte.byte) :=
  <["ca.crt" := certificate ca]> (<["ca.key" := privateKey ca]> ∅).

Definition secretData (cert ca : Cert) : gmap string (list Byte.byte) :=
  <["ca.crt" := certificate ca]>
    (<["tls.key" := privateKey cert]> (<["tls.crt" := certificate cert]> ∅)).

#[global] Instance collaborators : Collaborators (gmap (string * string) Secret) Cert := {|
  client_Get := get;
  client_Create := create;
  tls_GenerateCA := generateCA;
  tls_CAFromSecret := caFromSecret;
  tls_CreateAndSignCertificate := createAndSignCertificate;
  tls_SecretDataCA := secretDataCA;
  tls_SecretData := secretData
|}.

(** A pass starts on an empty build context and an empty call log. *)
Definition start (w : gmap (string * string) Secret)
    : State (gmap (string * string) Secret) Cert :=
  {| world := w; ctx := emptyContext; calls := [] |}.

(** The state a pass starts in when nothing is stored yet. *)
Definition init : State (gmap (string * string) Secret) Cert := start ∅.

Definition cluster (name namespace clusterName : string) (security : option SecuritySpec)
    : OpenSearchCluster :=
  {| Name := name;
     Namespace := namespace;
     Spec := {| General := {| ClusterName := clusterName; ServiceName := clusterName |};
                Security := security |} |}.

Definition generated : TlsInterfaceConfig :=
  {| Generate := true; CaSecret := None; CertSecret := None; KeySecret := None |}.

Definition external (secret : string) : TlsInterfaceConfig :=
  {| Generate := false;
     CaSecret := Some {| SecretName := secret; Key := None |};
     CertSecret := Some {| SecretName := secret; Key := None |};
     KeySecret := Some {| SecretName := secret; Key := None |} |}.

Definition tlsPolicy (transport http : option TlsInterfaceConfig) (nodesDn : list string)
    : option SecuritySpec :=
  Some {| Tls := Some {| Transport := transport; Http := http; NodesDn := nodesDn |} |}.

(** The scenario cluster: [demo] in namespace [demo], transport
    generated, http supplied from the secret [demo-http-certs]. *)
Definition demo : OpenSearchCluster :=
  cluster "demo" "demo" "demo"
    (tlsPolicy (Some generated) (Some (external "demo-http-certs")) []).

(** A supplied interface whose certificate reference is missing. *)
Definition missingCert (secret : string) : TlsInterfaceConfig :=
  {| Generate := false;
     CaSecret := Some {| SecretName := secret; Key := None |};
     CertSecret := None;
     KeySecret := Some {| SecretName := secret; Key := None |} |}.

(** The clusters the statements below are run on. *)
Definition noPolicy : OpenSearchCluster := cluster "demo" "default" "demo" None.

Definition transportOnly : OpenSearchCluster :=
  cluster "demo" "demo" "demo" (tlsPolicy (Some generated) None []).

Definition transportMissing : OpenSearchCluster :=
  cluster "demo" "demo" "demo" (tlsPolicy (Some (missingCert "demo-certs")) None []).

Definition namesOnly : OpenSearchCluster :=
  cluster "demo" "demo" "demo" (tlsPolicy None None ["CN=admin"]).

Definition namesAndTransport : OpenSearchCluster :=
  cluster "demo" "demo" "demo" (tlsPolicy (Some generated) None ["CN=admin"]).

(** What the reference world generates for [demo]: its CA, the CA
    secret, the store holding that secret alone, and the node
    certificate signed for the four DNS names. *)
Definition demoCA : Cert :=
  {| certificate := bytes "ca-cert:demo"; privateKey := bytes "ca-key:demo" |}.

Definition demoCASecret : Secret :=
  {| sec_Name := "demo-ca"; sec_Namespace := "demo"; sec_Data := secretDataCA demoCA |}.

Definition demoStore : gmap (string * string) Secret :=
  <[storeKey "demo-ca" "demo" := demoCASecret]> ∅.

Definition demoNodeCert : Cert :=
  {| certificate :=
       bytes "cert:demo:demo,demo.demo,demo.demo.svc,demo.demo.svc.cluster.local";
     privateKey := bytes "key:demo" |}.

(** A store that holds the node secret of the transport interface of
    [demo] and no CA secret. *)
Definition nodeOnlyStore : gmap (string * string) Secret :=
  <[storeKey "demo-transport-cert" "demo" :=
      {| sec_Name := "demo-transport-cert"; sec_Namespace := "demo";
         sec_Data := secretData demoNodeCert demoCA |}]> ∅.

(** Clusters whose interfaces are all supplied: one complete, one whose
    http interface lacks its certificate reference. *)
Definition externalOnly : OpenSearchCluster :=
  cluster "demo" "demo" "demo"
    (tlsPolicy (Some (external "demo-transport-certs")) (Some (external "demo-http-certs")) []).

(** A cluster whose two interfaces are both generated. *)
Definition bothGenerated : OpenSearchCluster :=
  cluster "demo" "demo" "demo" (tlsPolicy (Some generated) (Some generated) []).

Definition httpMissing : OpenSearchCluster :=
  cluster "demo" "demo" "demo"
    (tlsPolicy (Some (external "demo-transport-certs"))
       (Some (missingCert "demo-http-certs")) []).

(** The state in which the pass over [demo], started on an empty store,
    ends. *)
Definition afterDemo : State (gmap (string * string) Secret) Cert :=
  (Reconcile demo init).1.

End MapStore.

(** ** A world that runs out of quota

    The world is the number of creations, generations and signatures
    still allowed; once it is spent they fail.  Nothing can be fetched.
    A certificate is the common name it was made for. *)
Module QuotaWorld.

Definition get (key : ObjectKey) (budget : nat) : nat * (error + Secret) :=
  (budget, inl "not found").

Definition create (s : Secret) (budget : nat) : nat * option error :=
  match budget with
  | 0 => (0, Some "quota exceeded")
  | S budget' => (budget', None)
  end.

Definition make (commonName : string) (budget : nat) : nat * (error + string) :=
  match budget with
  | 0 => (0, inl "quota exceeded")
  | S budget' => (budget', inr commonName)
  end.

#[global] Instance collaborators : Collaborators nat string := {|
  client_Get := get;
  client_Create := create;
  tls_GenerateCA := make;
  tls_CAFromSecret := fun _ => EmptyString;
  tls_CreateAndSignCertificate := fun _ commonName _ => make commonName;
  tls_SecretDataCA := fun _ => ∅;
  tls_SecretData := fun _ _ => ∅
|}.

Definition start (budget : nat) : State nat string :=
  {| world := budget; ctx := emptyContext; calls := [] |}.

End QuotaWorld.

(** * Theorems *)

(** ** Reasoning about runs *)

Section Runs.

Context {W Cert : Type} `{!Collaborators W Cert}.

Lemma bind_inv {A B} (m : M W Cert A) (k : A -> M W Cert B) st st' r :
  bind m k st = (st', r) ->
  (exists e, m st = (st', inl e) /\ r = inl e) \/
  (exists st1 a, m st = (st1, inr a) /\ k a st1 = (st', r)).
Proof.
  unfold bind. destruct (m st) as [st1 [e | a]]; intros Hrun.
  - left. exists e. by inversion Hrun.
  - right. by exists st1, a.
Qed.

Lemma bind_inv_ok {A B} (m : M W Cert A) (k : A -> M W Cert B) st st' b :
  bind m k st = (st', inr b) ->
  exists st1 a, m st = (st1, inr a) /\ k a st1 = (st', inr b).
Proof.
  intros Hrun. apply bind_inv in Hrun as [(e & _ & He) | Hok]; [done | exact Hok].
Qed.

Lemma bind_ok {A B} (m : M W Cert A) (k : A -> M W Cert B) st st1 a :
  m st = (st1, inr a) -> bind m k st = k a st1.
Proof. unfold bind. by intros ->. Qed.

Lemma bind_err {A B} (m : M W Cert A) (k : A -> M W Cert B) st st1 e :
  m st = (st1, inl e) -> bind m k st = (st1, inl e).
Proof. unfold bind. by intros ->. Qed.

End Runs.

(** Unfold the reconciler down to the collaborators' calls. *)
Ltac unfold_run :=
  unfold Reconcile, HandleInterface, HandleInterface_ca, HandleInterface_node,
    HandleInterface_config, mount, Get, Create, GenerateCA,
    CreateAndSignCertificate, LoggerInfo, LoggerError, appendVolume,
    appendVolumeMount, addConfig, modify, record, perform, bind, ret, fail.

(** Run the reconciler, by value, up to the collaborators' answers. *)
Ltac eval_run :=
  cbv beta iota zeta delta
    [Reconcile HandleInterface HandleInterface_ca HandleInterface_node
     HandleInterface_config mount Get Create GenerateCA
     CreateAndSignCertificate LoggerInfo LoggerError appendVolume
     appendVolumeMount addConfig modify record perform bind ret fail
     world ctx calls].

(** Case analysis on the outcome of every collaborator call in sight. *)
Ltac run_cases :=
  repeat match goal with
  | |- context [client_Get ?k ?w] =>
      destruct (client_Get k w) as [? [? | ?]] eqn:?; cbv beta iota
  | |- context [client_Create ?s ?w] =>
      destruct (client_Create s w) as [? [? |]] eqn:?; cbv beta iota
  | |- context [tls_GenerateCA ?c ?w] =>
      destruct (tls_GenerateCA c w) as [? [? | ?]] eqn:?; cbv beta iota
  | |- context [tls_CreateAndSignCertificate ?ca ?c ?d ?w] =>
      destruct (tls_CreateAndSignCertificate ca c d w) as [? [? | ?]] eqn:?;
      cbv beta iota
  end.

(** Carry the presence of secrets along the collaborator calls of a run. *)
Ltac learn_present H :=
  let T := type of H in
  lazymatch goal with
  | _ : T |- _ => fail
  | _ => pose proof H
  end.

Ltac chase_present :=
  unfold keyOf in *; simpl in *;
  repeat match goal with
  | H : client_Get _ _ = (_, inr _) |- _ =>
      learn_present (get_found_present _ _ _ _ H)
  | H : client_Create _ _ = (_, None) |- _ =>
      learn_present (create_ok_present _ _ _ H)
  | Hp : present _ ?w, H : client_Get _ ?w = _ |- _ =>
      learn_present (get_preserves _ _ _ _ _ Hp H)
  | Hp : present _ ?w, H : client_Create _ ?w = _ |- _ =>
      learn_present (create_preserves _ _ _ _ _ Hp H)
  | Hp : present _ ?w, H : tls_GenerateCA _ ?w = _ |- _ =>
      learn_present (generate_preserves _ _ _ _ _ Hp H)
  | Hp : present _ ?w, H : tls_CreateAndSignCertificate _ _ _ ?w = _ |- _ =>
      learn_present (sign_preserves _ _ _ _ _ _ _ Hp H)
  end;
  unfold keyOf in *; simpl in *.

(** The cases of one [HandleInterface]: which interface it is, whether
    its material is generated and, if not, which references are set. *)
Ltac interface_split config name :=
  let gen := fresh "gen" in
  let caRef := fresh "caRef" in
  let certRef := fresh "certRef" in
  let keyRef := fresh "keyRef" in
  unfold HandleInterface, HandleInterface_config;
  destruct config as [gen caRef certRef keyRef];
  cbn [Generate CaSecret CertSecret KeySecret] in *;
  (destruct (String.eqb name "transport"); [| destruct (String.eqb name "http")]);
  (destruct gen; [| destruct caRef, certRef, keyRef]).

(** In each case the run on the state [st] is evaluated and split on the
    collaborators' answers. *)
Ltac interface_cases config name st :=
  destruct st as [? ? ?]; simpl in *;
  interface_split config name; eval_run; run_cases.

Section Claims.

Context {W Cert : Type} `{!Collaborators W Cert}.

Implicit Types (Instance : OpenSearchCluster) (st : State W Cert).

(** C6. When no security policy is configured (the security section or
    its TLS part is nil), the pass returns nil: the world and the build
    context are the ones it started with, so an empty context stays
    empty, and the only entry added to the call log is the info line;
    no secret is fetched or created. *)
Theorem Reconcile_no_policy Instance st :
  (Security (Spec Instance) = None \/
   exists security, Security (Spec Instance) = Some security /\ Tls security = None) ->
  exists st',
    Reconcile Instance st = (st', inr tt) /\
    world st' = world st /\
    ctx st' = ctx st /\
    (ctx st = emptyContext -> ctx st' = emptyContext) /\
    calls st' = calls st ++ [ELogInfo "No security specified. Not doing anything" []] /\
    Forall (fun e => is_store_call e = false)
      [ELogInfo (Cert := Cert) "No security specified. Not doing anything" []].
Proof.
  intros Hnone.
  assert (Hpolicy : match Security (Spec Instance) with
                    | None => None
                    | Some security => Tls security
                    end = None).
  { destruct Hnone as [-> | (security & -> & ->)]; reflexivity. }
  unfold Reconcile. rewrite Hpolicy. unfold_run. simpl.
  eexists. repeat split; eauto.
Qed.

(** C4 (amended). For an interface with [generate = false] and at least
    one of the three secret references missing, [HandleInterface]
    returns the error "missing secret in spec".  The world and the build
    context are untouched and the only call made is the logger's, whose
    message, not the returned error, names the interface. *)
Theorem HandleInterface_missing_secret Instance name config nodesDn st :
  Generate config = false ->
  CaSecret config = None \/ CertSecret config = None \/ KeySecret config = None ->
  HandleInterface Instance name (Some config) nodesDn st =
    ({| world := world st;
        ctx := ctx st;
        calls := calls st ++
          [ELogError "missing secret in spec"
             ("Not all secrets for " +:+ name +:+ " provided") []] |},
     inl "missing secret in spec").
Proof.
  intros Hgen Hmissing. unfold HandleInterface. rewrite Hgen.
  destruct (CaSecret config), (CertSecret config), (KeySecret config);
    try reflexivity.
  by destruct Hmissing as [? | [? | ?]].
Qed.

(** A failing [HandleInterface] has not written to the build context:
    every error path returns before the first volume is appended. *)
Lemma HandleInterface_error_ctx Instance name config nodesDn st st' err :
  HandleInterface Instance name config nodesDn st = (st', inl err) ->
  ctx st' = ctx st.
Proof.
  destruct config as [config |]; [| by inversion 1].
  interface_cases config name st; by inversion 1.
Qed.

(** C8. When handling the transport interface returns an error, the
    pass returns that error in the state the transport handling stopped
    in: nothing of the http interface is run and nothing more is written
    to the build context, which is still the one the pass started with,
    so neither [nodes_dn] nor [allow_unsafe_democertificates] is added. *)
Theorem Reconcile_transport_error Instance security tlsConfig st st1 err :
  Security (Spec Instance) = Some security ->
  Tls security = Some tlsConfig ->
  HandleInterface Instance "transport" (Transport tlsConfig) (NodesDn tlsConfig) st
    = (st1, inl err) ->
  Reconcile Instance st = (st1, inl err) /\ ctx st1 = ctx st.
Proof.
  intros Hsec Htls Hrun. split.
  - unfold Reconcile. rewrite Hsec, Htls. by apply bind_err.
  - by eapply HandleInterface_error_ctx.
Qed.

(** The list of trusted names a successful [HandleInterface] hands back:
    a generated transport interface adds the cluster's common name. *)
Lemma HandleInterface_ok_nodesDn Instance name config nodesDn st st' nodesDn' :
  HandleInterface Instance name config nodesDn st = (st', inr nodesDn') ->
  nodesDn' =
    match config with
    | Some config =>
        if Generate config && String.eqb name "transport"
        then nodesDn ++ ["CN=" +:+ ClusterName (General (Spec Instance))]
        else nodesDn
    | None => nodesDn
    end.
Proof.
  destruct config as [config |]; [| by inversion 1].
  interface_cases config name st; by inversion 1.
Qed.

(** What a successful pass is made of: both interfaces handled without
    error, transport first, then the two closing writes. *)
Lemma Reconcile_ok_inv Instance security tlsConfig st st' :
  Security (Spec Instance) = Some security ->
  Tls security = Some tlsConfig ->
  Reconcile Instance st = (st', inr tt) ->
  exists st1 dn1 st2 dn2,
    HandleInterface Instance "transport" (Transport tlsConfig) (NodesDn tlsConfig) st
      = (st1, inr dn1) /\
    HandleInterface Instance "http" (Http tlsConfig) dn1 st1 = (st2, inr dn2) /\
    world st' = world st2 /\
    calls st' = calls st2 /\
    ctx st' =
      AddConfig "plugins.security.allow_unsafe_democertificates" "true"
        (if Nat.ltb 0 (List.length dn2)
         then AddConfig "plugins.security.nodes_dn" (formatNodesDn dn2) (ctx st2)
         else ctx st2).
Proof.
  intros Hsec Htls. unfold Reconcile. rewrite Hsec, Htls. intros Hrun.
  apply bind_inv_ok in Hrun as (st1 & dn1 & Htransport & Hrun).
  apply bind_inv_ok in Hrun as (st2 & dn2 & Hhttp & Hrun).
  exists st1, dn1, st2, dn2. split; [done |]. split; [done |].
  revert Hrun. unfold bind, addConfig, modify, ret.
  destruct (Nat.ltb 0 (List.length dn2)); by inversion 1.
Qed.

(** C9. A pass with a TLS policy that returns nil has written
    [plugins.security.allow_unsafe_democertificates = "true"]; it is the
    last write of the pass, on top of the context left by the two
    interfaces and the [nodes_dn] entry. *)
Theorem Reconcile_allow_unsafe_democertificates Instance security tlsConfig st st' :
  Security (Spec Instance) = Some security ->
  Tls security = Some tlsConfig ->
  Reconcile Instance st = (st', inr tt) ->
  OpenSearchConfig (ctx st') !! "plugins.security.allow_unsafe_democertificates"
    = Some "true" /\
  exists st1 dn1 st2 dn2,
    HandleInterface Instance "transport" (Transport tlsConfig) (NodesDn tlsConfig) st
      = (st1, inr dn1) /\
    HandleInterface Instance "http" (Http tlsConfig) dn1 st1 = (st2, inr dn2) /\
    ctx st' =
      AddConfig "plugins.security.allow_unsafe_democertificates" "true"
        (if Nat.ltb 0 (List.length dn2)
         then AddConfig "plugins.security.nodes_dn" (formatNodesDn dn2) (ctx st2)
         else ctx st2).
Proof.
  intros Hsec Htls Hrun.
  destruct (Reconcile_ok_inv _ _ _ _ _ Hsec Htls Hrun)
    as (st1 & dn1 & st2 & dn2 & Ht & Hh & _ & _ & Hctx).
  split; [| by exists st1, dn1, st2, dn2].
  rewrite Hctx. simpl. apply lookup_insert_eq.
Qed.

(** C7 (amended). A successful [HandleInterface] of a configured
    interface appends, for generated material, one volume backed by the
    node secret and one mount of the whole directory [tls-<name>], with
    no sub-path; for supplied material, three volumes and three mounts,
    for [ca.crt], [tls.key] and [tls.crt] in this order, each mounted at
    [tls-<name>/<filename>] with the reference's [Key] as sub-path when
    it is set and the file name otherwise. *)
Theorem HandleInterface_mounts Instance name config nodesDn st st' nodesDn' :
  HandleInterface Instance name (Some config) nodesDn st = (st', inr nodesDn') ->
  let clusterName := ClusterName (General (Spec Instance)) in
  if Generate config then
    Volumes (ctx st') = Volumes (ctx st) ++
      [ {| vol_Name := name +:+ "-cert";
           vol_SecretName := clusterName +:+ "-" +:+ name +:+ "-cert" |} ] /\
    VolumeMounts (ctx st') = VolumeMounts (ctx st) ++
      [ {| vm_Name := name +:+ "-cert";
           vm_MountPath := "/usr/share/opensearch/config/tls-" +:+ name;
           vm_SubPath := EmptyString |} ]
  else
    exists caSecret certSecret keySecret,
      CaSecret config = Some caSecret /\
      CertSecret config = Some certSecret /\
      KeySecret config = Some keySecret /\
      world st' = world st /\
      calls st' = calls st /\
      Volumes (ctx st') = Volumes (ctx st) ++
        [ {| vol_Name := name +:+ "-ca"; vol_SecretName := SecretName caSecret |};
          {| vol_Name := name +:+ "-key"; vol_SecretName := SecretName keySecret |};
          {| vol_Name := name +:+ "-cert"; vol_SecretName := SecretName certSecret |} ] /\
      VolumeMounts (ctx st') = VolumeMounts (ctx st) ++
        [ {| vm_Name := name +:+ "-ca";
             vm_MountPath := "/usr/share/opensearch/config/tls-" +:+ name +:+ "/ca.crt";
             vm_SubPath := default "ca.crt" (Key caSecret) |};
          {| vm_Name := name +:+ "-key";
             vm_MountPath := "/usr/share/opensearch/config/tls-" +:+ name +:+ "/tls.key";
             vm_SubPath := default "tls.key" (Key keySecret) |};
          {| vm_Name := name +:+ "-cert";
             vm_MountPath := "/usr/share/opensearch/config/tls-" +:+ name +:+ "/tls.crt";
             vm_SubPath := default "tls.crt" (Key certSecret) |} ].
Proof.
  interface_cases config name st; inversion 1; subst; simpl;
    try done;
    (eexists _, _, _; repeat (split; [reflexivity |]);
     lazymatch goal with
     | |- context [Key ?a] =>
         lazymatch goal with
         | |- context [Key ?b] =>
             lazymatch goal with
             | |- context [Key ?c] => destruct (Key a), (Key b), (Key c)
             end
         end
     end; simpl; by rewrite <- ?(assoc_L (++))).
Qed.

(** [HandleInterface] writes the [ssl.transport] and [ssl.http] entries
    only: the [nodes_dn] entry is as it was, whatever the outcome. *)
Lemma HandleInterface_nodes_dn_key Instance name config nodesDn st st' r :
  HandleInterface Instance name config nodesDn st = (st', r) ->
  OpenSearchConfig (ctx st') !! "plugins.security.nodes_dn"
    = OpenSearchConfig (ctx st) !! "plugins.security.nodes_dn".
Proof.
  destruct config as [config |]; [| by inversion 1].
  interface_cases config name st; inversion 1; subst; simpl;
    by rewrite ?lookup_insert_ne.
Qed.

(** C3 (amended). In a pass with a TLS policy that returns nil, started
    on a context without a [nodes_dn] entry, the list of trusted names
    is the policy's [NodesDn] followed, when the transport interface is
    generated, by [CN=<cluster>].  The entry [plugins.security.nodes_dn]
    is written exactly when that list is not empty, that is when the
    policy lists names or transport is generated; its value is the list
    in brackets, quoted and comma separated.  With a generated transport
    and no name in the policy it is the string of [CN=<cluster>] alone,
    whatever the http interface is. *)
Theorem Reconcile_nodes_dn Instance security tlsConfig st st' :
  Security (Spec Instance) = Some security ->
  Tls security = Some tlsConfig ->
  OpenSearchConfig (ctx st) !! "plugins.security.nodes_dn" = None ->
  Reconcile Instance st = (st', inr tt) ->
  let clusterName := ClusterName (General (Spec Instance)) in
  let generated :=
    match Transport tlsConfig with
    | Some config => Generate config
    | None => false
    end in
  let nodesDn :=
    NodesDn tlsConfig ++ (if generated then ["CN=" +:+ clusterName] else []) in
  (is_Some (OpenSearchConfig (ctx st') !! "plugins.security.nodes_dn") <->
     NodesDn tlsConfig <> [] \/ generated = true) /\
  (nodesDn <> [] ->
     OpenSearchConfig (ctx st') !! "plugins.security.nodes_dn"
       = Some (formatNodesDn nodesDn)) /\
  (generated = true -> NodesDn tlsConfig = [] ->
     OpenSearchConfig (ctx st') !! "plugins.security.nodes_dn"
       = Some ("[" +:+ dq +:+ "CN=" +:+ clusterName +:+ dq +:+ "]")).
Proof.
  intros Hsec Htls Hfresh Hrun clusterName generated nodesDn.
  destruct (Reconcile_ok_inv _ _ _ _ _ Hsec Htls Hrun)
    as (st1 & dn1 & st2 & dn2 & Ht & Hh & _ & _ & Hctx).
  assert (Hkey : OpenSearchConfig (ctx st2) !! "plugins.security.nodes_dn" = None).
  { rewrite (HandleInterface_nodes_dn_key _ _ _ _ _ _ _ Hh).
    by rewrite (HandleInterface_nodes_dn_key _ _ _ _ _ _ _ Ht). }
  apply HandleInterface_ok_nodesDn in Ht, Hh.
  assert (Hdn : dn2 = nodesDn).
  { subst dn2 dn1 nodesDn generated clusterName.
    destruct (Http tlsConfig) as [http |];
      [rewrite andb_false_r |];
      destruct (Transport tlsConfig) as [transport |]; simpl;
      try destruct (Generate transport); simpl; by rewrite ?app_nil_r. }
  clear Ht Hh. rewrite Hdn in Hctx. clear Hdn dn1 dn2.
  assert (Hlookup : OpenSearchConfig (ctx st') !! "plugins.security.nodes_dn" =
                    if Nat.ltb 0 (List.length nodesDn)
                    then Some (formatNodesDn nodesDn) else None).
  { rewrite Hctx. simpl. rewrite lookup_insert_ne by done.
    destruct (Nat.ltb 0 (List.length nodesDn)); simpl; [| done].
    apply lookup_insert_eq. }
  rewrite Hlookup. subst nodesDn. split; [| split].
  - destruct (NodesDn tlsConfig) as [| dn dns]; simpl.
    + destruct generated; simpl; split; intros H;
        try (by right); try (by destruct H); try (by eexists).
    + split; [by left | by eexists].
  - destruct (NodesDn tlsConfig) as [| dn dns]; simpl; [| done].
    by destruct generated.
  - intros -> ->. reflexivity.
Qed.

(** An entry addressed to one of [names] is addressed to one of any
    larger list of names. *)
Lemma addressed_by_mono (clusterName : string) (names names' : list string)
    (e : Event Cert) :
  names ⊆ names' ->
  addressed_by clusterName names e -> addressed_by clusterName names' e.
Proof.
  intros Hsub. destruct e; simpl; try done; intros [Hns Hname]; split; auto.
Qed.

(** The secrets of the two interfaces of a pass are among the three
    secrets named after the cluster. *)
Lemma interfaceSecretNames_transport clusterName :
  interfaceSecretNames clusterName "transport" ⊆ clusterSecretNames clusterName.
Proof.
  intros x. unfold interfaceSecretNames, clusterSecretNames. simpl.
  rewrite !elem_of_cons. tauto.
Qed.

Lemma interfaceSecretNames_http clusterName :
  interfaceSecretNames clusterName "http" ⊆ clusterSecretNames clusterName.
Proof.
  intros x. unfold interfaceSecretNames, clusterSecretNames. simpl.
  rewrite !elem_of_cons. tauto.
Qed.

(** The calls of one [HandleInterface] are added at the end of the log,
    and each of them is addressed by the cluster name: to the namespace
    [ClusterName] and to one of the two secrets lines 54-55 name. *)
Lemma HandleInterface_calls Instance name config nodesDn st st' r :
  HandleInterface Instance name config nodesDn st = (st', r) ->
  exists l,
    calls st' = calls st ++ l /\
    Forall (addressed_by (ClusterName (General (Spec Instance)))
              (interfaceSecretNames (ClusterName (General (Spec Instance))) name)) l.
Proof.
  destruct config as [config |]; last first.
  { unfold_run. inversion 1. exists []. split; [by rewrite app_nil_r | constructor]. }
  interface_cases config name st; inversion 1; subst; simpl;
    rewrite <- ?(assoc_L (++)); simpl;
    first [ by (exists []; split; [by rewrite app_nil_r | constructor])
          | (eexists; split; [reflexivity |];
             unfold interfaceSecretNames;
             repeat (apply Forall_cons; split;
                     [simpl; first [done | split; [done |];
                        repeat first [apply list_elem_of_here | apply list_elem_of_further]] |]);
             apply Forall_nil_2) ].
Qed.

(** [HandleInterface] reads nothing of the resource but
    [Spec.General.ClusterName]. *)
Lemma HandleInterface_reads_cluster_name Instance Instance' name config nodesDn :
  ClusterName (General (Spec Instance')) = ClusterName (General (Spec Instance)) ->
  HandleInterface Instance' name config nodesDn
    = HandleInterface Instance name config nodesDn.
Proof. unfold HandleInterface. by intros ->. Qed.

(** [Reconcile] reads nothing of the resource but
    [Spec.General.ClusterName] and [Spec.Security]. *)
Lemma Reconcile_reads_cluster_name Instance Instance' st :
  ClusterName (General (Spec Instance')) = ClusterName (General (Spec Instance)) ->
  Security (Spec Instance') = Security (Spec Instance) ->
  Reconcile Instance' st = Reconcile Instance st.
Proof.
  intros Hname Hsec. unfold Reconcile. rewrite Hsec.
  destruct (match Security (Spec Instance) with
            | Some security => Tls security
            | None => None
            end) as [tlsConfig |]; [| done].
  unfold bind.
  rewrite (HandleInterface_reads_cluster_name _ _ _ _ _ Hname).
  destruct (HandleInterface Instance "transport" _ _ st) as [st1 [e | dn1]]; [done |].
  by rewrite (HandleInterface_reads_cluster_name _ _ _ _ _ Hname).
Qed.

(** C10. In every pass, each secret fetched or created is addressed to
    the namespace [Spec.General.ClusterName] and is one of the three
    secrets named after the cluster ([<cluster>-ca],
    [<cluster>-transport-cert], [<cluster>-http-cert]), and each
    certificate is issued for that name and for the DNS names built from
    it alone.  The resource's own name and namespace are never read: the
    pass of a resource that differs in them only is the same pass, and so
    is the pass of any resource with the same cluster name and the same
    security policy, whatever its service name. *)
Theorem Reconcile_namespace_is_cluster_name Instance st st' r :
  Reconcile Instance st = (st', r) ->
  (exists l,
     calls st' = calls st ++ l /\
     Forall (in_cluster_namespace (ClusterName (General (Spec Instance)))) l) /\
  (forall name namespace,
     Reconcile {| Name := name; Namespace := namespace; Spec := Spec Instance |} st
       = (st', r)) /\
  (forall Instance',
     ClusterName (General (Spec Instance')) = ClusterName (General (Spec Instance)) ->
     Security (Spec Instance') = Security (Spec Instance) ->
     Reconcile Instance' st = (st', r)).
Proof.
  intros Hrun. split; [| split; [by destruct Instance |]]; last first.
  { intros Instance' Hname Hsec. by rewrite (Reconcile_reads_cluster_name _ _ _ Hname Hsec). }
  unfold Reconcile in Hrun. unfold in_cluster_namespace.
  destruct (match Security (Spec Instance) with
            | Some security => Tls security
            | None => None
            end) as [tlsConfig |].
  - apply bind_inv in Hrun as [(e & Ht & _) | (st1 & dn1 & Ht & Hrun)].
    { apply HandleInterface_calls in Ht as (l1 & Hl1 & HP1).
      exists l1. split; [done |].
      eapply Forall_impl; [exact HP1 |].
      intros e'. apply addressed_by_mono, interfaceSecretNames_transport. }
    apply HandleInterface_calls in Ht as (l1 & Hl1 & HP1).
    assert (HQ1 : Forall (addressed_by (ClusterName (General (Spec Instance)))
                            (clusterSecretNames (ClusterName (General (Spec Instance))))) l1).
    { eapply Forall_impl; [exact HP1 |].
      intros e'. apply addressed_by_mono, interfaceSecretNames_transport. }
    assert (Hcalls : forall st0 st2 r2,
               HandleInterface Instance "http" (Http tlsConfig) dn1 st0 = (st2, r2) ->
               exists l2, calls st2 = calls st0 ++ l2 /\
                 Forall (addressed_by (ClusterName (General (Spec Instance)))
                           (clusterSecretNames (ClusterName (General (Spec Instance))))) l2).
    { intros st0 st2 r2 Hh. apply HandleInterface_calls in Hh as (l2 & Hl2 & HP2).
      exists l2. split; [done |].
      eapply Forall_impl; [exact HP2 |].
      intros e'. apply addressed_by_mono, interfaceSecretNames_http. }
    apply bind_inv in Hrun as [(e & Hh & _) | (st2 & dn2 & Hh & Hrun)].
    { apply Hcalls in Hh as (l2 & Hl2 & HP2).
      exists (l1 ++ l2). rewrite Hl2, Hl1, (assoc_L (++)). split; [done |].
      by apply Forall_app. }
    apply Hcalls in Hh as (l2 & Hl2 & HP2).
    exists (l1 ++ l2). split; [| by apply Forall_app].
    rewrite (assoc_L (++)), <- Hl1, <- Hl2.
    revert Hrun. unfold bind, addConfig, modify, ret.
    destruct (Nat.ltb 0 (List.length dn2)); by inversion 1.
  - revert Hrun. unfold_run. inversion 1; subst; simpl.
    eexists. split; [reflexivity | by repeat constructor].
Qed.

(** C5. Ensuring the CA (lines 59-76) starts by fetching the secret
    [<cluster>-ca].  When the fetch succeeds the CA read back from the
    secret is returned, and the fetch is the only call made: nothing is
    generated or created.  When the fetch fails, a CA is generated for
    the cluster name, stored in a new secret of that name and returned.
    On a store that keeps what it holds, the secret is present once the
    step has succeeded, and wherever it is present the step does nothing
    but fetch it: the CA is created at most once and reused from then
    on. *)
Theorem HandleInterface_ca_get_or_create `{!StoreLaws W Cert} name clusterName st :
  let key := {| key_Name := clusterName +:+ "-ca"; key_Namespace := clusterName |} in
  let ensureCA := HandleInterface_ca name clusterName clusterName (clusterName +:+ "-ca") in
  (exists l, calls (ensureCA st).1 = calls st ++ EGet key :: l) /\
  (forall w1 caSecret,
     client_Get key (world st) = (w1, inr caSecret) ->
     ensureCA st =
       ({| world := w1; ctx := ctx st; calls := calls st ++ [EGet key] |},
        inr (tls_CAFromSecret (sec_Data caSecret)))) /\
  (forall w1 e w2 ca w3,
     let caSecret := {| sec_Name := clusterName +:+ "-ca";
                        sec_Namespace := clusterName;
                        sec_Data := tls_SecretDataCA ca |} in
     client_Get key (world st) = (w1, inl e) ->
     tls_GenerateCA clusterName w1 = (w2, inr ca) ->
     client_Create caSecret w2 = (w3, None) ->
     ensureCA st =
       ({| world := w3; ctx := ctx st;
           calls := calls st ++ [EGet key; EGenerateCA clusterName; ECreate caSecret] |},
        inr ca)) /\
  (forall st' ca, ensureCA st = (st', inr ca) -> present key (world st')) /\
  (forall st2,
     present key (world st2) ->
     exists ca,
       ensureCA st2 =
         ({| world := world st2; ctx := ctx st2; calls := calls st2 ++ [EGet key] |},
          inr ca)).
Proof.
  intros key ensureCA. subst ensureCA key. repeat split.
  - destruct st as [w c l]. eval_run. run_cases; simpl;
      rewrite <- ?(assoc_L (++)); simpl; by eexists.
  - intros w1 caSecret Hget. destruct st as [w c l]. simpl in Hget.
    eval_run. by rewrite Hget.
  - intros w1 e w2 ca w3 caSecret Hget Hgen Hcreate. subst caSecret.
    destruct st as [w c l]. simpl in Hget.
    eval_run. rewrite Hget. cbv beta iota. rewrite Hgen. cbv beta iota.
    rewrite Hcreate. cbv beta iota. by rewrite <- !(assoc_L (++)).
  - intros st' ca. destruct st as [w c l]. eval_run.
    run_cases; inversion 1; subst; simpl.
    + by eapply (create_ok_present
        {| sec_Name := clusterName +:+ "-ca"; sec_Namespace := clusterName;
           sec_Data := tls_SecretDataCA ca |}).
    + by eapply get_found_present.
  - intros st2 [s Hget]. exists (tls_CAFromSecret (sec_Data s)).
    destruct st2 as [w2 c2 l2]. simpl in Hget. eval_run. by rewrite Hget.
Qed.

(** C2. Handling a generated transport interface when the CA secret
    cannot be fetched.  With [ns] the namespace the reconciler keeps the
    cluster's objects in, which line 52 takes from
    [Spec.General.ClusterName]: whatever the collaborators answer, every
    certificate signed is signed for the DNS names [cluster],
    [cluster.ns], [cluster.ns.svc], [cluster.ns.svc.cluster.local], and
    every call for the node secret (its fetch, the signing, its create)
    comes after a create of the CA secret that the store answered with
    success.  A failed CA generation ends the run with that error right
    after the generation, and a failed create of the CA secret ends it
    right after that create: in both cases the node secret is neither
    fetched, signed for nor created, and the build context is left as it
    was.  When generation, signing and both creates succeed and the node
    secret cannot be fetched either, the calls are exactly: fetch the CA
    secret, generate the CA, create the CA secret, fetch the node
    secret, sign for those names, create the node secret. *)
Theorem HandleInterface_transport_fresh Instance config nodesDn st w1 e1 :
  let clusterName := ClusterName (General (Spec Instance)) in
  let ns := ClusterName (General (Spec Instance)) in
  let caKey := {| key_Name := clusterName +:+ "-ca"; key_Namespace := ns |} in
  let nodeKey := {| key_Name := clusterName +:+ "-transport-cert"; key_Namespace := ns |} in
  let dns := [ clusterName;
               clusterName +:+ "." +:+ ns;
               clusterName +:+ "." +:+ ns +:+ ".svc";
               clusterName +:+ "." +:+ ns +:+ ".svc.cluster.local" ] in
  let run := HandleInterface Instance "transport" (Some config) nodesDn st in
  Generate config = true ->
  client_Get caKey (world st) = (w1, inl e1) ->
  (exists l,
     calls run.1 = calls st ++ l /\
     created_before clusterName ns (clusterName +:+ "-transport-cert") w1 l /\
     Forall (fun e => match e with
                      | ESign _ commonName names => commonName = clusterName /\ names = dns
                      | _ => True
                      end) l) /\
  (forall w2 err,
     tls_GenerateCA clusterName w1 = (w2, inl err) ->
     run =
       ({| world := w2; ctx := ctx st;
           calls := calls st ++
             [ ELogInfo "Generating certificates" [("interface", "transport")];
               EGet caKey; EGenerateCA clusterName;
               ELogError err "Failed to create CA" [("interface", "transport")] ] |},
        inl err)) /\
  (forall w2 ca w3 err,
     let caSecret := {| sec_Name := clusterName +:+ "-ca"; sec_Namespace := ns;
                        sec_Data := tls_SecretDataCA ca |} in
     tls_GenerateCA clusterName w1 = (w2, inr ca) ->
     client_Create caSecret w2 = (w3, Some err) ->
     run =
       ({| world := w3; ctx := ctx st;
           calls := calls st ++
             [ ELogInfo "Generating certificates" [("interface", "transport")];
               EGet caKey; EGenerateCA clusterName; ECreate caSecret;
               ELogError err "Failed to store CA in secret" [("interface", "transport")] ] |},
        inl err)) /\
  (forall w2 ca w3 w4 e2 w5 nodeCert w6,
     let caSecret := {| sec_Name := clusterName +:+ "-ca"; sec_Namespace := ns;
                        sec_Data := tls_SecretDataCA ca |} in
     let nodeSecret := {| sec_Name := clusterName +:+ "-transport-cert"; sec_Namespace := ns;
                          sec_Data := tls_SecretData nodeCert ca |} in
     tls_GenerateCA clusterName w1 = (w2, inr ca) ->
     client_Create caSecret w2 = (w3, None) ->
     client_Get nodeKey w3 = (w4, inl e2) ->
     tls_CreateAndSignCertificate ca clusterName dns w4 = (w5, inr nodeCert) ->
     client_Create nodeSecret w5 = (w6, None) ->
     run.2 = inr (nodesDn ++ ["CN=" +:+ clusterName]) /\
     world run.1 = w6 /\
     calls run.1 = calls st ++
       [ ELogInfo "Generating certificates" [("interface", "transport")];
         EGet caKey; EGenerateCA clusterName; ECreate caSecret;
         EGet nodeKey; ESign ca clusterName dns; ECreate nodeSecret ]).
Proof.
  intros clusterName ns caKey nodeKey dns run.
  subst run ns caKey nodeKey dns clusterName.
  unfold HandleInterface, HandleInterface_config.
  generalize (ClusterName (General (Spec Instance))). intros clusterName Hgen Hca.
  rewrite Hgen. change (String.eqb "transport" "transport") with true.
  destruct st as [w c l]. simpl in Hca. split; [| split; [| split]].
  - eval_run. rewrite Hca. cbv beta iota.
    run_cases; simpl; rewrite <- ?(assoc_L (++)); simpl.
    all: eexists; split; [reflexivity | split; [| by repeat constructor]].
    all: intros l1 step l2 Hsplit Hstep.
    all: repeat (destruct l1 as [| ? l1]; simplify_eq/=;
                 try solve
                   [ apply String.eqb_eq, (inj (String.append clusterName)) in Hstep;
                     discriminate Hstep
                   | eexists _, _, _; split; [eassumption |]; split; [eassumption |];
                     repeat first [apply list_elem_of_here | apply list_elem_of_further] ]).
  - intros w2 err Hgenca.
    eval_run. rewrite Hca. cbv beta iota. rewrite Hgenca. simpl.
    by rewrite <- !(assoc_L (++)).
  - intros w2 ca w3 err Hgenca Hcreateca.
    eval_run. rewrite Hca. cbv beta iota. rewrite Hgenca. cbv beta iota.
    rewrite Hcreateca. simpl.
    by rewrite <- !(assoc_L (++)).
  - intros w2 ca w3 w4 e2 w5 nodeCert w6 Hgenca Hcreateca Hnode Hsign Hcreatenode.
    change "-transport-cert" with ("-" +:+ "transport" +:+ "-cert")
      in Hnode, Hcreatenode |- *.
    eval_run. rewrite Hca. cbv beta iota. rewrite Hgenca. cbv beta iota.
    rewrite Hcreateca. cbv beta iota. rewrite Hnode. cbv beta iota.
    unfold dnsNames. rewrite Hsign. cbv beta iota. rewrite Hcreatenode. simpl.
    by rewrite <- !(assoc_L (++)).
Qed.

(** ** Passes over a store that keeps what it holds *)

Section Lawful.

Context `{!StoreLaws W Cert}.

(** Whatever [HandleInterface] does, a secret that was present is still
    present afterwards. *)
Lemma HandleInterface_preserves_present Instance name config nodesDn st st' r key :
  present key (world st) ->
  HandleInterface Instance name config nodesDn st = (st', r) ->
  present key (world st').
Proof.
  intros Hpresent.
  destruct config as [config |]; [| unfold_run; inversion 1; by subst].
  interface_cases config name st; inversion 1; subst; simpl; chase_present; done.
Qed.

(** After a generated interface was handled without error, its CA
    secret and its node secret are present. *)
Lemma HandleInterface_present_after Instance name config nodesDn st st' nodesDn' :
  Generate config = true ->
  HandleInterface Instance name (Some config) nodesDn st = (st', inr nodesDn') ->
  present (caKey Instance) (world st') /\ present (nodeKey Instance name) (world st').
Proof.
  unfold caKey, nodeKey, HandleInterface.
  generalize (ClusterName (General (Spec Instance))). intros clusterName Hgen.
  interface_cases config name st; try discriminate Hgen;
    inversion 1; subst; simpl; chase_present; by split.
Qed.

(** Handling an interface again, from the build context of a run that
    returned nil and with the secrets of a generated interface present:
    the run returns nil again and ends in the same build context; it
    leaves the world alone and only fetches and logs. *)
Lemma HandleInterface_replay Instance name config nodesDn st st' nodesDn' st2 :
  HandleInterface Instance name config nodesDn st = (st', inr nodesDn') ->
  ctx st2 = ctx st ->
  (forall c, config = Some c -> Generate c = true ->
     present (caKey Instance) (world st2) /\ present (nodeKey Instance name) (world st2)) ->
  exists l,
    HandleInterface Instance name config nodesDn st2 =
      ({| world := world st2; ctx := ctx st'; calls := calls st2 ++ l |}, inr nodesDn') /\
    Forall (fun e => is_read_only e = true) l.
Proof.
  intros Hrun Hctx Hpresent.
  destruct config as [config |]; last first.
  { revert Hrun. unfold_run. inversion 1; subst. exists [].
    rewrite app_nil_r, <- Hctx. by destruct st2. }
  specialize (Hpresent config eq_refl). revert Hpresent Hrun.
  unfold caKey, nodeKey, present, HandleInterface.
  generalize (ClusterName (General (Spec Instance))). intros clusterName.
  destruct st as [w c l], st2 as [w2 c2 l2]. simpl in Hctx. subst c2. simpl.
  interface_split config name; intros Hpresent;
    try (destruct (Hpresent eq_refl) as [[caSecret Hca] [nodeSecret Hnode]]);
    clear Hpresent; eval_run;
    try (rewrite Hca; cbv beta iota; rewrite Hnode; cbv beta iota);
    run_cases; inversion 1; subst; simpl; rewrite <- ?(assoc_L (++)); simpl;
    first [ by (exists []; split; [by rewrite app_nil_r | constructor])
          | (eexists; split; [reflexivity | by repeat constructor]) ].
Qed.

(** C1. On a store that keeps what it holds, a pass run again right
    after a pass that returned nil, for the same resource, on the world
    the first pass left and from the build context the first pass
    started with, returns nil as well.  It only fetches and logs: no
    secret is created, no CA generated, no certificate signed, and the
    world is left as the first pass left it.  Its build context
    (volumes, mounts and configuration) is the one of the first pass. *)
Theorem Reconcile_idempotent Instance st st1 st2 :
  Reconcile Instance st = (st1, inr tt) ->
  world st2 = world st1 ->
  ctx st2 = ctx st ->
  exists l,
    Reconcile Instance st2 =
      ({| world := world st1; ctx := ctx st1; calls := calls st2 ++ l |}, inr tt) /\
    Forall (fun e => is_read_only e = true) l.
Proof.
  intros Hrun Hworld Hctx.
  destruct (Security (Spec Instance)) as [security |] eqn:Hsec; last first.
  { revert Hrun Hworld. unfold Reconcile. rewrite Hsec. unfold_run.
    inversion 1; subst; simpl. intros Hworld. rewrite <- Hworld, <- Hctx.
    eexists. split; [reflexivity | by repeat constructor]. }
  destruct (Tls security) as [tlsConfig |] eqn:Htls; last first.
  { revert Hrun Hworld. unfold Reconcile. rewrite Hsec, Htls. unfold_run.
    inversion 1; subst; simpl. intros Hworld. rewrite <- Hworld, <- Hctx.
    eexists. split; [reflexivity | by repeat constructor]. }
  destruct (Reconcile_ok_inv _ _ _ _ _ Hsec Htls Hrun)
    as (sa & dn1 & sb & dn2 & Ht & Hh & Hw & _ & Hctx1).
  rewrite Hw in Hworld.
  destruct (HandleInterface_replay _ _ _ _ _ _ _ st2 Ht Hctx) as (l1 & Ht2 & Hl1).
  { intros c Hc Hgen. rewrite Hc in Ht. rewrite Hworld.
    destruct (HandleInterface_present_after _ _ _ _ _ _ _ Hgen Ht) as [Hca Hnode].
    split; by eapply HandleInterface_preserves_present. }
  match type of Ht2 with _ = (?s, _) => set (sa2 := s) in * end.
  destruct (HandleInterface_replay _ _ _ _ _ _ _ sa2 Hh eq_refl) as (l2 & Hh2 & Hl2).
  { intros c Hc Hgen. rewrite Hc in Hh. subst sa2. simpl. rewrite Hworld.
    by eapply HandleInterface_present_after. }
  exists (l1 ++ l2). split; [| by apply Forall_app].
  unfold Reconcile. rewrite Hsec, Htls.
  rewrite (bind_ok _ _ _ _ _ Ht2), (bind_ok _ _ _ _ _ Hh2).
  rewrite Hctx1, Hw, <- Hworld. subst sa2. unfold bind, addConfig, modify, ret.
  destruct (Nat.ltb 0 (List.length dn2)); simpl; by rewrite (assoc_L (++)).
Qed.

End Lawful.

End Claims.

(** ** The reference store *)

(** A run whose result is known ends in its own final state. *)
Lemma run_result {A B : Type} (x : A * B) (b : B) : x.2 = b -> x = (x.1, b).
Proof. destruct x as [a b']. simpl. by intros ->. Qed.

(** Close a goal [x = (x.1, b)] by evaluating the result of the run [x]. *)
Ltac run_known :=
  lazymatch goal with
  | |- ?x = (_, ?b) => refine (run_result x b _); vm_compute; reflexivity
  end.

(** In the reference store a key is present as soon as it is bound. *)
Lemma MapStore_present (key : ObjectKey) (w : gmap (string * string) Secret) :
  is_Some (w !! MapStore.storeKey (key_Name key) (key_Namespace key)) ->
  present (Cert := MapStore.Cert) key w.
Proof.
  intros [s Hs]. exists s. simpl. unfold MapStore.get. by rewrite Hs.
Qed.

Lemma MapStore_present_inv (key : ObjectKey) (w : gmap (string * string) Secret) :
  present (Cert := MapStore.Cert) key w ->
  is_Some (w !! MapStore.storeKey (key_Name key) (key_Namespace key)).
Proof.
  intros [s Hs]. simpl in Hs. unfold MapStore.get in Hs.
  destruct (w !! MapStore.storeKey (key_Name key) (key_Namespace key)); [by eexists | done].
Qed.

(** The reference store keeps what it holds. *)
Lemma MapStore_laws : StoreLaws (gmap (string * string) Secret) MapStore.Cert.
Proof.
  split.
  - intros key w w' s. simpl. unfold MapStore.get.
    destruct (w !! _) as [s' |] eqn:Hs; inversion 1; subst.
    apply MapStore_present. by rewrite Hs.
  - intros s w w'. simpl. unfold MapStore.create.
    destruct (w !! _) eqn:Hs; inversion 1; subst.
    apply MapStore_present. simpl. rewrite lookup_insert_eq. by eexists.
  - intros key key' w w' r Hp. simpl. unfold MapStore.get.
    destruct (w !! _); inversion 1; by subst.
  - intros key s w w' r Hp. simpl. unfold MapStore.create.
    destruct (w !! _) eqn:Hs; inversion 1; subst; [done |].
    apply MapStore_present. apply MapStore_present_inv in Hp.
    rewrite lookup_insert. case_decide; [by eexists | done].
  - intros key cn w w' r Hp. simpl. unfold MapStore.generateCA. inversion 1; by subst.
  - intros key ca cn dns w w' r Hp. simpl. unfold MapStore.createAndSignCertificate.
    inversion 1; by subst.
Qed.

(** ** The claims on concrete clusters *)

Lemma Reconcile_no_policy_witness :
  exists st',
    Reconcile MapStore.noPolicy MapStore.init = (st', inr tt) /\
    world st' = ∅ /\
    ctx st' = emptyContext /\
    calls st' = [ELogInfo "No security specified. Not doing anything" []].
Proof.
  destruct (Reconcile_no_policy MapStore.noPolicy MapStore.init)
    as (st' & Hrun & Hworld & _ & Hctx & Hcalls & _); [left; reflexivity |].
  exists st'. split; [exact Hrun |]. split; [exact Hworld |].
  split; [exact (Hctx eq_refl) | exact Hcalls].
Defined.

Lemma HandleInterface_missing_secret_witness :
  HandleInterface MapStore.transportMissing "transport"
    (Some (MapStore.missingCert "demo-certs")) [] MapStore.init =
    ({| world := ∅;
        ctx := emptyContext;
        calls := [ELogError "missing secret in spec"
                    "Not all secrets for transport provided" []] |},
     inl "missing secret in spec").
Proof.
  exact (HandleInterface_missing_secret MapStore.transportMissing "transport"
           (MapStore.missingCert "demo-certs") [] MapStore.init
           eq_refl (or_intror (or_introl eq_refl))).
Defined.

(** C4, as stated, fails: the error returned for the transport interface
    is the error returned for the http interface, and its message
    mentions neither. *)
Lemma missing_secret_error_names_no_interface :
  exists st1 st2 err,
    HandleInterface MapStore.transportMissing "transport"
      (Some (MapStore.missingCert "demo-certs")) [] MapStore.init = (st1, inl err) /\
    HandleInterface MapStore.transportMissing "http"
      (Some (MapStore.missingCert "demo-certs")) [] MapStore.init = (st2, inl err) /\
    mentions err "transport" = false /\
    mentions err "http" = false.
Proof. eexists _, _, _. repeat split. Qed.

Lemma Reconcile_transport_error_witness :
  exists st1,
    Reconcile MapStore.transportMissing MapStore.init
      = (st1, inl "missing secret in spec") /\
    ctx st1 = emptyContext.
Proof.
  eexists.
  eapply (Reconcile_transport_error MapStore.transportMissing _ _ MapStore.init
            _ _ eq_refl eq_refl).
  run_known.
Defined.

Lemma Reconcile_allow_unsafe_democertificates_witness :
  OpenSearchConfig (ctx ((Reconcile MapStore.demo MapStore.init).1))
    !! "plugins.security.allow_unsafe_democertificates" = Some "true".
Proof.
  refine (proj1 (Reconcile_allow_unsafe_democertificates MapStore.demo _ _
                   MapStore.init ((Reconcile MapStore.demo MapStore.init).1) eq_refl eq_refl _)).
  run_known.
Defined.

Lemma Reconcile_nodes_dn_witness :
  OpenSearchConfig (ctx (Reconcile MapStore.transportOnly MapStore.init).1)
    !! "plugins.security.nodes_dn" = Some ("[" +:+ dq +:+ "CN=demo" +:+ dq +:+ "]").
Proof.
  refine (proj2 (proj2 (Reconcile_nodes_dn MapStore.transportOnly _ _
                          MapStore.init _ eq_refl eq_refl eq_refl _))
            eq_refl eq_refl).
  run_known.
Defined.

(** C3, as stated, fails.  With names listed in the policy and no
    interface configured, the pass fetches, generates and creates
    nothing, and yet [nodes_dn] is written; with a generated transport,
    no http and a name listed in the policy, the value is not that of
    [CN=<cluster>] alone. *)
Lemma nodes_dn_without_generated_transport :
  (Reconcile MapStore.namesOnly MapStore.init).2 = inr tt /\
  calls (Reconcile MapStore.namesOnly MapStore.init).1 = [] /\
  ~ (exists config,
       Transport {| Transport := None; Http := None; NodesDn := ["CN=admin"] |}
         = Some config /\ Generate config = true) /\
  OpenSearchConfig (ctx (Reconcile MapStore.namesOnly MapStore.init).1)
    !! "plugins.security.nodes_dn" = Some (formatNodesDn ["CN=admin"]) /\
  (Reconcile MapStore.namesAndTransport MapStore.init).2 = inr tt /\
  OpenSearchConfig (ctx (Reconcile MapStore.namesAndTransport MapStore.init).1)
    !! "plugins.security.nodes_dn" = Some (formatNodesDn ["CN=admin"; "CN=demo"]) /\
  formatNodesDn ["CN=admin"; "CN=demo"] <> "[" +:+ dq +:+ "CN=demo" +:+ dq +:+ "]".
Proof.
  split; [vm_compute; reflexivity |].
  split; [vm_compute; reflexivity |].
  split; [by intros (config & Hconfig & _) |].
  split; [vm_compute; reflexivity |].
  split; [vm_compute; reflexivity |].
  split; [vm_compute; reflexivity |].
  vm_compute. discriminate.
Qed.

Lemma Reconcile_namespace_is_cluster_name_witness :
  (exists l,
     calls ((Reconcile MapStore.demo MapStore.init).1) = l /\ Forall (in_cluster_namespace "demo") l) /\
  Reconcile {| Name := "other"; Namespace := "default"; Spec := Spec MapStore.demo |}
    MapStore.init = (((Reconcile MapStore.demo MapStore.init).1), inr tt) /\
  Reconcile {| Name := "other"; Namespace := "default";
               Spec := {| General := {| ClusterName := "demo"; ServiceName := "search" |};
                          Security := Security (Spec MapStore.demo) |} |}
    MapStore.init = (((Reconcile MapStore.demo MapStore.init).1), inr tt).
Proof.
  destruct (Reconcile_namespace_is_cluster_name MapStore.demo MapStore.init
              ((Reconcile MapStore.demo MapStore.init).1) (inr tt))
    as [(l & Hcalls & Hnamespace) [Hsame Hreads]].
  { run_known. }
  split; [| split; [exact (Hsame "other" "default") | exact (Hreads _ eq_refl eq_refl)]].
  exists l. split; [exact Hcalls | exact Hnamespace].
Defined.

Lemma HandleInterface_mounts_witness :
  VolumeMounts
    (ctx (HandleInterface MapStore.demo "http"
            (Some (MapStore.external "demo-http-certs")) [] MapStore.init).1) =
    [ {| vm_Name := "http-ca";
         vm_MountPath := "/usr/share/opensearch/config/tls-http/ca.crt";
         vm_SubPath := "ca.crt" |};
      {| vm_Name := "http-key";
         vm_MountPath := "/usr/share/opensearch/config/tls-http/tls.key";
         vm_SubPath := "tls.key" |};
      {| vm_Name := "http-cert";
         vm_MountPath := "/usr/share/opensearch/config/tls-http/tls.crt";
         vm_SubPath := "tls.crt" |} ].
Proof.
  destruct (HandleInterface_mounts MapStore.demo "http"
              (MapStore.external "demo-http-certs") [] MapStore.init
              _ [] (run_result _ _ eq_refl))
    as (caSecret & certSecret & keySecret & Hca & Hcert & Hkey & _ & _ & _ & Hmounts).
  injection Hca as <-. injection Hcert as <-. injection Hkey as <-.
  exact Hmounts.
Defined.

(** C7, as stated, fails for generated material: one volume and one
    mount are appended, not three, and the mount is the directory
    [tls-transport] itself, with no file name and no sub-path. *)
Lemma generated_interface_one_volume :
  (HandleInterface MapStore.transportOnly "transport" (Some MapStore.generated) []
     MapStore.init).2 = inr ["CN=demo"] /\
  Volumes (ctx (HandleInterface MapStore.transportOnly "transport"
                  (Some MapStore.generated) [] MapStore.init).1) =
    [ {| vol_Name := "transport-cert"; vol_SecretName := "demo-transport-cert" |} ] /\
  VolumeMounts (ctx (HandleInterface MapStore.transportOnly "transport"
                       (Some MapStore.generated) [] MapStore.init).1) =
    [ {| vm_Name := "transport-cert";
         vm_MountPath := "/usr/share/opensearch/config/tls-transport";
         vm_SubPath := EmptyString |} ] /\
  List.length (Volumes (ctx (HandleInterface MapStore.transportOnly "transport"
                               (Some MapStore.generated) [] MapStore.init).1)) <> 3.
Proof.
  split; [vm_compute; reflexivity |].
  split; [vm_compute; reflexivity |].
  split; [vm_compute; reflexivity |].
  vm_compute. discriminate.
Qed.

Lemma HandleInterface_transport_fresh_witness :
  calls (HandleInterface MapStore.transportOnly "transport" (Some MapStore.generated) []
           MapStore.init).1 =
    [ ELogInfo "Generating certificates" [("interface", "transport")];
      EGet {| key_Name := "demo-ca"; key_Namespace := "demo" |};
      EGenerateCA "demo";
      ECreate MapStore.demoCASecret;
      EGet {| key_Name := "demo-transport-cert"; key_Namespace := "demo" |};
      ESign MapStore.demoCA "demo"
        ["demo"; "demo.demo"; "demo.demo.svc"; "demo.demo.svc.cluster.local"];
      ECreate {| sec_Name := "demo-transport-cert"; sec_Namespace := "demo";
                 sec_Data := MapStore.secretData MapStore.demoNodeCert MapStore.demoCA |} ] /\
  HandleInterface MapStore.transportOnly "transport" (Some MapStore.generated) []
      (QuotaWorld.start 1) =
    ({| world := 0; ctx := emptyContext;
        calls :=
          [ ELogInfo "Generating certificates" [("interface", "transport")];
            EGet {| key_Name := "demo-ca"; key_Namespace := "demo" |};
            EGenerateCA "demo";
            ECreate {| sec_Name := "demo-ca"; sec_Namespace := "demo";
                       sec_Data := tls_SecretDataCA "demo" |};
            ELogError "quota exceeded" "Failed to store CA in secret"
              [("interface", "transport")] ] |},
     inl "quota exceeded") /\
  HandleInterface MapStore.transportOnly "transport" (Some MapStore.generated) []
      (QuotaWorld.start 0) =
    ({| world := 0; ctx := emptyContext;
        calls :=
          [ ELogInfo "Generating certificates" [("interface", "transport")];
            EGet {| key_Name := "demo-ca"; key_Namespace := "demo" |};
            EGenerateCA "demo";
            ELogError "quota exceeded" "Failed to create CA" [("interface", "transport")] ] |},
     inl "quota exceeded").
Proof.
  split; [| split].
  - refine (proj2 (proj2 (proj2 (proj2 (proj2
              (HandleInterface_transport_fresh MapStore.transportOnly
                 MapStore.generated [] MapStore.init ∅ "not found" eq_refl eq_refl)))
              ∅ MapStore.demoCA MapStore.demoStore MapStore.demoStore
              "not found" MapStore.demoStore MapStore.demoNodeCert
              (MapStore.create
                 {| sec_Name := "demo-transport-cert"; sec_Namespace := "demo";
                    sec_Data := MapStore.secretData MapStore.demoNodeCert
                                  MapStore.demoCA |}
                 MapStore.demoStore).1
              eq_refl eq_refl _ eq_refl _))).
    + simpl. unfold MapStore.get, MapStore.demoStore. simpl.
      rewrite lookup_insert_ne by discriminate. by rewrite lookup_empty.
    + refine (run_result _ _ _). vm_compute. reflexivity.
  - exact (proj1 (proj2 (proj2 (HandleInterface_transport_fresh MapStore.transportOnly
                                  MapStore.generated [] (QuotaWorld.start 1) 1 "not found"
                                  eq_refl eq_refl)))
             0 "demo" 0 "quota exceeded" eq_refl eq_refl).
  - exact (proj1 (proj2 (HandleInterface_transport_fresh MapStore.transportOnly
                           MapStore.generated [] (QuotaWorld.start 0) 0 "not found"
                           eq_refl eq_refl))
             0 "quota exceeded" eq_refl).
Defined.

Lemma HandleInterface_ca_get_or_create_witness :
  exists ca,
    HandleInterface_ca "http" "demo" "demo" "demo-ca"
      (MapStore.start (world ((Reconcile MapStore.demo MapStore.init).1))) =
      ({| world := world ((Reconcile MapStore.demo MapStore.init).1);
          ctx := emptyContext;
          calls := [EGet {| key_Name := "demo-ca"; key_Namespace := "demo" |}] |},
       inr ca).
Proof.
  refine (proj2 (proj2 (proj2 (proj2
            (HandleInterface_ca_get_or_create (StoreLaws0 := MapStore_laws)
               "http" "demo" MapStore.init))))
            (MapStore.start (world ((Reconcile MapStore.demo MapStore.init).1))) _).
  apply MapStore_present. apply is_Some_alt. vm_compute. exact I.
Defined.

Lemma Reconcile_idempotent_witness :
  exists l,
    Reconcile MapStore.demo (MapStore.start (world ((Reconcile MapStore.demo MapStore.init).1))) =
      ({| world := world ((Reconcile MapStore.demo MapStore.init).1); ctx := ctx ((Reconcile MapStore.demo MapStore.init).1); calls := l |},
       inr tt) /\
    Forall (fun e => is_read_only e = true) l.
Proof.
  refine (Reconcile_idempotent (StoreLaws0 := MapStore_laws) MapStore.demo
            MapStore.init ((Reconcile MapStore.demo MapStore.init).1)
            (MapStore.start (world ((Reconcile MapStore.demo MapStore.init).1))) _ eq_refl eq_refl).
  run_known.
Defined.

(** * Further properties of the TLS reconciler *)

(** Name the calls that precede the last one. *)
Ltac split_last :=
  rewrite <- ?(assoc_L (++)); simpl;
  first [ by eexists [], _, _
        | by eexists [_], _, _
        | by eexists [_; _], _, _
        | by eexists [_; _; _], _, _
        | by eexists [_; _; _; _], _, _
        | by eexists [_; _; _; _; _], _, _
        | by eexists [_; _; _; _; _; _], _, _
        | by eexists [_; _; _; _; _; _; _], _, _ ].

(** Follow the answers the hypotheses give to the collaborators' calls. *)
Ltac follow_path :=
  repeat match goal with
  | H : client_Get ?k ?w = _ |- context [client_Get ?k ?w] =>
      rewrite H; cbv beta iota
  | H : client_Create ?s ?w = _ |- context [client_Create ?s ?w] =>
      rewrite H; cbv beta iota
  | H : tls_GenerateCA ?c ?w = _ |- context [tls_GenerateCA ?c ?w] =>
      rewrite H; cbv beta iota
  | H : tls_CreateAndSignCertificate ?ca ?c ?d ?w = _
    |- context [tls_CreateAndSignCertificate ?ca ?c ?d ?w] =>
      rewrite H; cbv beta iota
  end.

(** Evaluate a generated interface of any name along such a path. *)
Ltac generated_path Instance name st Hgen :=
  unfold caKey, nodeKey, HandleInterface, HandleInterface_config, dnsNames in *;
  generalize dependent (ClusterName (General (Spec Instance)));
  intros clusterName; intros;
  destruct st as [? ? ?]; simpl in *;
  rewrite Hgen;
  (destruct (String.eqb name "transport"); [| destruct (String.eqb name "http")]);
  eval_run; unfold dnsNames; follow_path; simpl;
  rewrite <- ?(assoc_L (++)); simpl.

Section TlsExtras.

Context {W Cert : Type} `{!Collaborators W Cert}.

Implicit Types (Instance : OpenSearchCluster) (st : State W Cert).

(** X1. No error leaves [HandleInterface] unlogged: whenever it returns
    an error, the last call it made is the logger's [Error] with that
    very error. *)
Theorem HandleInterface_error_logged Instance name config nodesDn st st' err :
  HandleInterface Instance name config nodesDn st = (st', inl err) ->
  exists l msg keysAndValues,
    calls st' = calls st ++ l ++ [ELogError err msg keysAndValues].
Proof.
  destruct config as [config |]; [| by inversion 1].
  interface_cases config name st; inversion 1; subst; simpl; split_last.
Qed.

(** X2. A CA that cannot be produced stops the interface before its
    node certificate.  When the CA secret cannot be fetched and
    generating the CA fails, or storing it fails, [HandleInterface]
    returns that error after logging it; the node secret is not
    fetched, nothing is signed, and the build context is untouched. *)
Theorem HandleInterface_ca_failure_aborts Instance name config nodesDn st w1 e1 :
  let clusterName := ClusterName (General (Spec Instance)) in
  Generate config = true ->
  client_Get (caKey Instance) (world st) = (w1, inl e1) ->
  (forall w2 err,
     tls_GenerateCA clusterName w1 = (w2, inl err) ->
     HandleInterface Instance name (Some config) nodesDn st =
       ({| world := w2; ctx := ctx st;
           calls := calls st ++
             [ ELogInfo "Generating certificates" [("interface", name)];
               EGet (caKey Instance); EGenerateCA clusterName;
               ELogError err "Failed to create CA" [("interface", name)] ] |},
        inl err)) /\
  (forall w2 ca w3 err,
     let caSecret := {| sec_Name := clusterName +:+ "-ca"; sec_Namespace := clusterName;
                        sec_Data := tls_SecretDataCA ca |} in
     tls_GenerateCA clusterName w1 = (w2, inr ca) ->
     client_Create caSecret w2 = (w3, Some err) ->
     HandleInterface Instance name (Some config) nodesDn st =
       ({| world := w3; ctx := ctx st;
           calls := calls st ++
             [ ELogInfo "Generating certificates" [("interface", name)];
               EGet (caKey Instance); EGenerateCA clusterName; ECreate caSecret;
               ELogError err "Failed to store CA in secret" [("interface", name)] ] |},
        inl err)).
Proof.
  intros clusterName Hgen Hca. subst clusterName. split.
  - intros w2 err Hgenca. generated_path Instance name st Hgen; reflexivity.
  - intros w2 ca w3 err caSecret Hgenca Hcreate. subst caSecret.
    generated_path Instance name st Hgen; reflexivity.
Qed.

(** X3. A node secret that is already there is kept as it is, even
    when the CA had to be made anew.  When the CA secret cannot be
    fetched, a CA is generated and stored, and the node secret is then
    fetched successfully, [HandleInterface] returns nil having signed
    nothing and created no node secret: the stored certificate is not
    reissued under the new CA. *)
Theorem HandleInterface_new_ca_keeps_node_secret
    Instance name config nodesDn st w1 e1 w2 ca w3 w4 nodeSecret :
  let clusterName := ClusterName (General (Spec Instance)) in
  let caSecret := {| sec_Name := clusterName +:+ "-ca"; sec_Namespace := clusterName;
                     sec_Data := tls_SecretDataCA ca |} in
  Generate config = true ->
  client_Get (caKey Instance) (world st) = (w1, inl e1) ->
  tls_GenerateCA clusterName w1 = (w2, inr ca) ->
  client_Create caSecret w2 = (w3, None) ->
  client_Get (nodeKey Instance name) w3 = (w4, inr nodeSecret) ->
  exists st' nodesDn',
    HandleInterface Instance name (Some config) nodesDn st = (st', inr nodesDn') /\
    world st' = w4 /\
    calls st' = calls st ++
      [ ELogInfo "Generating certificates" [("interface", name)];
        EGet (caKey Instance); EGenerateCA clusterName; ECreate caSecret;
        EGet (nodeKey Instance name) ].
Proof.
  intros clusterName caSecret Hgen Hca Hgenca Hcreate Hnode.
  subst clusterName caSecret.
  generated_path Instance name st Hgen; by eexists _, _.
Qed.

(** X4. A pass that finds the CA but not the node secret takes up where
    an earlier one stopped: no CA is generated, and the node
    certificate is signed by the CA read back from the stored secret,
    for the cluster name and the four DNS names, and stored together
    with that CA. *)
Theorem HandleInterface_signs_with_stored_ca
    Instance name config nodesDn st w1 caSecret w2 e2 w3 nodeCert w4 :
  let clusterName := ClusterName (General (Spec Instance)) in
  let ca := tls_CAFromSecret (sec_Data caSecret) in
  let nodeSecret := {| sec_Name := clusterName +:+ "-" +:+ name +:+ "-cert";
                       sec_Namespace := clusterName;
                       sec_Data := tls_SecretData nodeCert ca |} in
  Generate config = true ->
  client_Get (caKey Instance) (world st) = (w1, inr caSecret) ->
  client_Get (nodeKey Instance name) w1 = (w2, inl e2) ->
  tls_CreateAndSignCertificate ca clusterName (dnsNames clusterName clusterName) w2
    = (w3, inr nodeCert) ->
  client_Create nodeSecret w3 = (w4, None) ->
  exists st' nodesDn',
    HandleInterface Instance name (Some config) nodesDn st = (st', inr nodesDn') /\
    world st' = w4 /\
    calls st' = calls st ++
      [ ELogInfo "Generating certificates" [("interface", name)];
        EGet (caKey Instance); EGet (nodeKey Instance name);
        ESign ca clusterName (dnsNames clusterName clusterName);
        ECreate nodeSecret ].
Proof.
  intros clusterName ca nodeSecret Hgen Hca Hnode Hsign Hcreate.
  subst clusterName ca nodeSecret.
  generated_path Instance name st Hgen; by eexists _, _.
Qed.

(** [HandleInterface] writes the entries of its own interface only:
    any other key of the configuration is as it was, whatever the
    outcome. *)
Lemma HandleInterface_config_frame Instance name config nodesDn st st' r key :
  key ∉ (interfaceConfig name).*1 ->
  HandleInterface Instance name config nodesDn st = (st', r) ->
  OpenSearchConfig (ctx st') !! key = OpenSearchConfig (ctx st) !! key.
Proof.
  destruct config as [config |]; [| by inversion 2].
  unfold interfaceConfig. interface_cases config name st; simpl;
    intros Hkey; inversion 1; subst; simpl; try done;
    rewrite !lookup_insert_ne; set_solver.
Qed.

(** A handled interface has its entries in the configuration. *)
Lemma HandleInterface_config_written Instance name config nodesDn st st' nodesDn' :
  HandleInterface Instance name (Some config) nodesDn st = (st', inr nodesDn') ->
  Forall (fun kv => OpenSearchConfig (ctx st') !! kv.1 = Some kv.2) (interfaceConfig name).
Proof.
  unfold interfaceConfig. interface_cases config name st; simpl;
    inversion 1; subst; simpl;
    repeat (constructor; [by simplify_map_eq |]); constructor.
Qed.

(** X5. When the transport interface was handled and the http
    interface fails, the pass returns the http error in the state the
    http handling stopped in.  What transport appended stays in the
    build context, and neither [nodes_dn] nor
    [allow_unsafe_democertificates] is written: both entries are as
    they were before the pass. *)
Theorem Reconcile_http_error Instance security tlsConfig st st1 nodesDn1 st2 err :
  Security (Spec Instance) = Some security ->
  Tls security = Some tlsConfig ->
  HandleInterface Instance "transport" (Transport tlsConfig) (NodesDn tlsConfig) st
    = (st1, inr nodesDn1) ->
  HandleInterface Instance "http" (Http tlsConfig) nodesDn1 st1 = (st2, inl err) ->
  Reconcile Instance st = (st2, inl err) /\
  ctx st2 = ctx st1 /\
  OpenSearchConfig (ctx st2) !! "plugins.security.nodes_dn"
    = OpenSearchConfig (ctx st) !! "plugins.security.nodes_dn" /\
  OpenSearchConfig (ctx st2) !! "plugins.security.allow_unsafe_democertificates"
    = OpenSearchConfig (ctx st) !! "plugins.security.allow_unsafe_democertificates".
Proof.
  intros Hsec Htls Ht Hh.
  assert (Hctx : ctx st2 = ctx st1) by by eapply HandleInterface_error_ctx.
  split; [| split; [done | rewrite Hctx; split]].
  - unfold Reconcile. rewrite Hsec, Htls.
    rewrite (bind_ok _ _ _ _ _ Ht). by apply bind_err.
  - eapply HandleInterface_config_frame; [| exact Ht]. vm_compute. set_solver.
  - eapply HandleInterface_config_frame; [| exact Ht]. vm_compute. set_solver.
Qed.

(** X6. The entries of an interface outlive the pass.  In a pass that
    returns nil, a configured transport interface has its four
    [ssl.transport] entries in the final configuration and a configured
    http interface its four [ssl.http] entries, with the values
    [HandleInterface] wrote: nothing written later in the pass replaces
    them.  The entries of an interface that is not configured are as
    they were before the pass. *)
Theorem Reconcile_interface_config Instance security tlsConfig st st' :
  Security (Spec Instance) = Some security ->
  Tls security = Some tlsConfig ->
  Reconcile Instance st = (st', inr tt) ->
  (is_Some (Transport tlsConfig) ->
     Forall (fun kv => OpenSearchConfig (ctx st') !! kv.1 = Some kv.2)
       (interfaceConfig "transport")) /\
  (is_Some (Http tlsConfig) ->
     Forall (fun kv => OpenSearchConfig (ctx st') !! kv.1 = Some kv.2)
       (interfaceConfig "http")) /\
  (Transport tlsConfig = None ->
     Forall (fun kv => OpenSearchConfig (ctx st') !! kv.1 = OpenSearchConfig (ctx st) !! kv.1)
       (interfaceConfig "transport")) /\
  (Http tlsConfig = None ->
     Forall (fun kv => OpenSearchConfig (ctx st') !! kv.1 = OpenSearchConfig (ctx st) !! kv.1)
       (interfaceConfig "http")).
Proof.
  intros Hsec Htls Hrun.
  destruct (Reconcile_ok_inv _ _ _ _ _ Hsec Htls Hrun)
    as (st1 & dn1 & st2 & dn2 & Ht & Hh & _ & _ & Hctx).
  assert (Hlast : forall key,
            key <> "plugins.security.allow_unsafe_democertificates" ->
            key <> "plugins.security.nodes_dn" ->
            OpenSearchConfig (ctx st') !! key = OpenSearchConfig (ctx st2) !! key).
  { intros key Hk1 Hk2. rewrite Hctx. simpl. rewrite lookup_insert_ne by done.
    destruct (Nat.ltb 0 (List.length dn2)); simpl; [| done].
    by rewrite lookup_insert_ne. }
  assert (Hhttp : forall key, key ∉ (interfaceConfig "http").*1 ->
            OpenSearchConfig (ctx st2) !! key = OpenSearchConfig (ctx st1) !! key).
  { intros key Hkey. by eapply HandleInterface_config_frame. }
  assert (Htransport : forall key, key ∉ (interfaceConfig "transport").*1 ->
            OpenSearchConfig (ctx st1) !! key = OpenSearchConfig (ctx st) !! key).
  { intros key Hkey. by eapply HandleInterface_config_frame. }
  repeat split.
  - intros [config Hconfig]. rewrite Hconfig in Ht.
    apply HandleInterface_config_written in Ht.
    apply Forall_forall. intros kv Hkv.
    rewrite Forall_forall in Ht. specialize (Ht kv Hkv).
    rewrite Hlast, Hhttp; [done | |  |];
      vm_compute in Hkv; set_solver.
  - intros [config Hconfig]. rewrite Hconfig in Hh.
    apply HandleInterface_config_written in Hh.
    apply Forall_forall. intros kv Hkv.
    rewrite Forall_forall in Hh. specialize (Hh kv Hkv).
    rewrite Hlast; [done | |]; vm_compute in Hkv; set_solver.
  - intros Hnone. rewrite Hnone in Ht. inversion Ht; subst.
    apply Forall_forall. intros kv Hkv.
    rewrite Hlast, Hhttp; [done | | |]; vm_compute in Hkv; set_solver.
  - intros Hnone. rewrite Hnone in Hh. inversion Hh; subst.
    apply Forall_forall. intros kv Hkv.
    rewrite Hlast, Htransport; [done | | |]; vm_compute in Hkv; set_solver.
Qed.

(** The volumes of one interface, by name, and the agreement of mounts
    and volumes. *)
Lemma HandleInterface_volume_names Instance name config nodesDn st st' nodesDn' :
  HandleInterface Instance name (Some config) nodesDn st = (st', inr nodesDn') ->
  map vol_Name (Volumes (ctx st')) =
    map vol_Name (Volumes (ctx st)) ++ interfaceVolumeNames name config.
Proof.
  unfold interfaceVolumeNames. interface_cases config name st; simpl;
    inversion 1; subst; simpl; rewrite ?map_app; simpl;
    by rewrite <- ?(assoc_L (++)).
Qed.

Lemma HandleInterface_mounts_match Instance name config nodesDn st st' r :
  HandleInterface Instance name config nodesDn st = (st', r) ->
  mounts_match_volumes (ctx st) ->
  mounts_match_volumes (ctx st').
Proof.
  unfold mounts_match_volumes.
  destruct config as [config |]; [| by inversion 1].
  interface_cases config name st; simpl;
    inversion 1; subst; simpl; intros Hmatch; rewrite ?map_app; simpl;
    by rewrite ?Hmatch.
Qed.

(** X7. Mounts and volumes of a pass agree, and volume names do not
    repeat.  Whatever the outcome of a pass, if every mount of the
    build context it starts with is the mount of the volume at the same
    position, the same holds of the context it ends with.  A pass that
    returns nil on a context without volumes leaves volumes whose names
    are pairwise distinct. *)
Theorem Reconcile_volume_names Instance st st' r :
  Reconcile Instance st = (st', r) ->
  (mounts_match_volumes (ctx st) -> mounts_match_volumes (ctx st')) /\
  (r = inr tt -> Volumes (ctx st) = [] ->
   NoDup (map vol_Name (Volumes (ctx st')))).
Proof.
  intros Hrun.
  destruct (Security (Spec Instance)) as [security |] eqn:Hsec; last first.
  { revert Hrun. unfold Reconcile. rewrite Hsec. unfold_run.
    inversion 1; subst; simpl. split; [done |]. intros _ ->. constructor. }
  destruct (Tls security) as [tlsConfig |] eqn:Htls; last first.
  { revert Hrun. unfold Reconcile. rewrite Hsec, Htls. unfold_run.
    inversion 1; subst; simpl. split; [done |]. intros _ ->. constructor. }
  split.
  - intros Hmatch. revert Hrun. unfold Reconcile. rewrite Hsec, Htls. intros Hrun.
    apply bind_inv in Hrun as [(e & Ht & _) | (st1 & dn1 & Ht & Hrun)].
    { by eapply HandleInterface_mounts_match. }
    apply HandleInterface_mounts_match in Ht; [| done].
    apply bind_inv in Hrun as [(e & Hh & _) | (st2 & dn2 & Hh & Hrun)].
    { by eapply HandleInterface_mounts_match. }
    apply HandleInterface_mounts_match in Hh; [| done].
    revert Hrun. unfold bind, addConfig, modify, ret.
    destruct (Nat.ltb 0 (List.length dn2)); by inversion 1.
  - intros -> Hempty.
    destruct (Reconcile_ok_inv _ _ _ _ _ Hsec Htls Hrun)
      as (st1 & dn1 & st2 & dn2 & Ht & Hh & _ & _ & Hctx).
    assert (Hvolumes : Volumes (ctx st') = Volumes (ctx st2)).
    { rewrite Hctx. by destruct (Nat.ltb 0 (List.length dn2)). }
    rewrite Hvolumes. clear Hrun Hctx Hvolumes.
    destruct (Transport tlsConfig) as [transport |], (Http tlsConfig) as [http |].
    + apply HandleInterface_volume_names in Ht, Hh.
      rewrite Hh, Ht, Hempty. unfold interfaceVolumeNames.
      destruct (Generate transport), (Generate http); simpl;
        apply NoDup_ListNoDup; repeat constructor; simpl; intuition discriminate.
    + apply HandleInterface_volume_names in Ht. inversion Hh; subst.
      rewrite Ht, Hempty. unfold interfaceVolumeNames.
      destruct (Generate transport); simpl;
        apply NoDup_ListNoDup; repeat constructor; simpl; intuition discriminate.
    + apply HandleInterface_volume_names in Hh. inversion Ht; subst.
      rewrite Hh, Hempty. unfold interfaceVolumeNames.
      destruct (Generate http); simpl;
        apply NoDup_ListNoDup; repeat constructor; simpl; intuition discriminate.
    + inversion Ht; subst. inversion Hh; subst. rewrite Hempty. constructor.
Qed.

(** A handling that generates nothing calls no collaborator but the
    logger and leaves the world alone. *)
Lemma HandleInterface_external_calls Instance name config nodesDn st st' r :
  (forall c, config = Some c -> Generate c = false) ->
  HandleInterface Instance name config nodesDn st = (st', r) ->
  world st' = world st /\
  exists l, calls st' = calls st ++ l /\ Forall (fun e => is_log e = true) l.
Proof.
  intros Hexternal.
  destruct config as [config |]; last first.
  { unfold_run. inversion 1; subst. split; [done |].
    exists []. split; [by rewrite app_nil_r | constructor]. }
  specialize (Hexternal config eq_refl). revert Hexternal.
  interface_cases config name st; try discriminate; intros _;
    inversion 1; subst; simpl; (split; [done |]);
    first [ by (exists []; split; [by rewrite app_nil_r | constructor])
          | (eexists; split; [reflexivity | by repeat constructor]) ].
Qed.

(** X8. A pass that generates nothing never touches the store.  When no
    configured interface has [generate = true], the pass, whatever its
    outcome, leaves the world as it was and calls nothing but the
    logger: no secret is fetched or created, no CA generated, no
    certificate signed. *)
Theorem Reconcile_external_only Instance st st' r :
  (forall security tlsConfig config,
     Security (Spec Instance) = Some security ->
     Tls security = Some tlsConfig ->
     Transport tlsConfig = Some config \/ Http tlsConfig = Some config ->
     Generate config = false) ->
  Reconcile Instance st = (st', r) ->
  world st' = world st /\
  exists l, calls st' = calls st ++ l /\ Forall (fun e => is_log e = true) l.
Proof.
  intros Hexternal Hrun.
  destruct (Security (Spec Instance)) as [security |] eqn:Hsec; last first.
  { revert Hrun. unfold Reconcile. rewrite Hsec. unfold_run.
    inversion 1; subst; simpl. split; [done |].
    eexists. split; [reflexivity | by repeat constructor]. }
  destruct (Tls security) as [tlsConfig |] eqn:Htls; last first.
  { revert Hrun. unfold Reconcile. rewrite Hsec, Htls. unfold_run.
    inversion 1; subst; simpl. split; [done |].
    eexists. split; [reflexivity | by repeat constructor]. }
  specialize (Hexternal security tlsConfig).
  revert Hrun. unfold Reconcile. rewrite Hsec, Htls. intros Hrun.
  apply bind_inv in Hrun as [(e & Ht & _) | (st1 & dn1 & Ht & Hrun)].
  { eapply HandleInterface_external_calls; [| exact Ht].
    intros c Hc. apply (Hexternal c eq_refl Htls). by left. }
  apply HandleInterface_external_calls in Ht as (Hw1 & l1 & Hl1 & Hlog1);
    [| intros c Hc; apply (Hexternal c eq_refl Htls); by left].
  apply bind_inv in Hrun as [(e & Hh & _) | (st2 & dn2 & Hh & Hrun)].
  { apply HandleInterface_external_calls in Hh as (Hw2 & l2 & Hl2 & Hlog2);
      [| intros c Hc; apply (Hexternal c eq_refl Htls); by right].
    split; [congruence |]. exists (l1 ++ l2).
    rewrite Hl2, Hl1, (assoc_L (++)). split; [done | by apply Forall_app]. }
  apply HandleInterface_external_calls in Hh as (Hw2 & l2 & Hl2 & Hlog2);
    [| intros c Hc; apply (Hexternal c eq_refl Htls); by right].
  assert (Hend : world st' = world st2 /\ calls st' = calls st2).
  { revert Hrun. unfold bind, addConfig, modify, ret.
    destruct (Nat.ltb 0 (List.length dn2)); by inversion 1. }
  destruct Hend as [Hw Hl]. split; [congruence |]. exists (l1 ++ l2).
  rewrite Hl, Hl2, Hl1, (assoc_L (++)). split; [done | by apply Forall_app].
Qed.

(** One handling generates at most one CA, and none where the CA secret
    is present. *)
Lemma HandleInterface_generates_once Instance name config nodesDn st st' r :
  HandleInterface Instance name config nodesDn st = (st', r) ->
  exists l,
    calls st' = calls st ++ l /\
    List.length (List.filter is_generate_ca l) <= 1 /\
    (present (caKey Instance) (world st) -> List.filter is_generate_ca l = []).
Proof.
  destruct config as [config |]; last first.
  { unfold_run. inversion 1; subst. exists []. rewrite app_nil_r. simpl.
    split; [done | split; [lia | done]]. }
  unfold present, caKey, HandleInterface.
  generalize (ClusterName (General (Spec Instance))). intros clusterName.
  interface_cases config name st; inversion 1; subst; simpl;
    rewrite <- ?(assoc_L (++)); simpl;
    first [ by (exists []; rewrite app_nil_r; simpl;
                split; [done | split; [lia | done]])
          | (eexists; split; [reflexivity |]; simpl; split; [lia |];
             first [ done | by intros [? ?]; simplify_eq ]) ].
Qed.

Section LawfulExtras.

Context `{!StoreLaws W Cert}.

(** X9. On a store that keeps what it holds, a pass generates at most
    one CA, whatever its outcome: once the transport interface has
    made or found the CA, the http interface finds it. *)
Theorem Reconcile_generates_one_ca Instance st st' r :
  Reconcile Instance st = (st', r) ->
  exists l,
    calls st' = calls st ++ l /\
    List.length (List.filter is_generate_ca l) <= 1.
Proof.
  intros Hrun.
  destruct (Security (Spec Instance)) as [security |] eqn:Hsec; last first.
  { revert Hrun. unfold Reconcile. rewrite Hsec. unfold_run.
    inversion 1; subst; simpl. eexists. split; [reflexivity | simpl; lia]. }
  destruct (Tls security) as [tlsConfig |] eqn:Htls; last first.
  { revert Hrun. unfold Reconcile. rewrite Hsec, Htls. unfold_run.
    inversion 1; subst; simpl. eexists. split; [reflexivity | simpl; lia]. }
  revert Hrun. unfold Reconcile. rewrite Hsec, Htls. intros Hrun.
  apply bind_inv in Hrun as [(e & Ht & _) | (st1 & dn1 & Ht & Hrun)].
  { apply HandleInterface_generates_once in Ht as (l1 & Hl1 & Hone & _).
    by exists l1. }
  assert (Hrest : exists l2,
            calls st' = calls st1 ++ l2 /\
            List.length (List.filter is_generate_ca l2) <= 1 /\
            (present (caKey Instance) (world st1) ->
             List.filter is_generate_ca l2 = [])).
  { apply bind_inv in Hrun as [(e & Hh & _) | (st2 & dn2 & Hh & Hrun)].
    { by apply HandleInterface_generates_once in Hh. }
    apply HandleInterface_generates_once in Hh as (l2 & Hl2 & Hone & Hnone).
    exists l2. split; [| done]. rewrite <- Hl2.
    revert Hrun. unfold bind, addConfig, modify, ret.
    destruct (Nat.ltb 0 (List.length dn2)); by inversion 1. }
  destruct Hrest as (l2 & Hl2 & Hone2 & Hnone2).
  destruct (Transport tlsConfig) as [transport |] eqn:Htransport; last first.
  { revert Ht. unfold_run. inversion 1; subst.
    by exists l2. }
  destruct (Generate transport) eqn:Hgen.
  - destruct (HandleInterface_present_after _ _ _ _ _ _ _ Hgen Ht) as [Hca _].
    apply HandleInterface_generates_once in Ht as (l1 & Hl1 & Hone1 & _).
    exists (l1 ++ l2). rewrite Hl2, Hl1, (assoc_L (++)). split; [done |].
    rewrite List.filter_app, length_app, (Hnone2 Hca). simpl. lia.
  - apply HandleInterface_external_calls in Ht as (_ & l1 & Hl1 & Hlog);
      [| by intros c [= <-]].
    exists (l1 ++ l2). rewrite Hl2, Hl1, (assoc_L (++)). split; [done |].
    rewrite List.filter_app, length_app.
    assert (Hzero : List.filter is_generate_ca l1 = []).
    { clear -Hlog. induction Hlog as [| e l He _ IH]; [done |].
      simpl. by destruct e. }
    rewrite Hzero. simpl. lia.
Qed.

End LawfulExtras.

End TlsExtras.

(** * Properties of the dashboards reconciler *)

(** Run the dashboards reconciler, by value, up to the collaborators'
    answers, and split on them. *)
Ltac dashboard_eval :=
  cbv beta iota zeta delta
    [Dashboard.Reconcile Dashboard.Reconcile_deployment
     Dashboard.Reconcile_configmap Dashboard.Reconcile_service
     Dashboard.Get Dashboard.Create Dashboard.Println Dashboard.record
     Dashboard.perform Dashboard.bind Dashboard.ret Dashboard.fail
     Dashboard.world Dashboard.calls negb].

Ltac dashboard_cases :=
  repeat match goal with
  | |- context [Dashboard.client_Get ?k ?key ?w] =>
      destruct (Dashboard.client_Get k key w) as [? [? |]] eqn:?; cbv beta iota
  | |- context [Dashboard.client_Create ?o ?w] =>
      destruct (Dashboard.client_Create o w) as [? [? |]] eqn:?; cbv beta iota
  | |- context [Dashboard.IsAlreadyExists ?e] =>
      destruct (Dashboard.IsAlreadyExists e) eqn:?; cbv beta iota
  end.

Ltac dashboard_path :=
  repeat match goal with
  | H : Dashboard.client_Get ?k ?key ?w = _
    |- context [Dashboard.client_Get ?k ?key ?w] => rewrite H; cbv beta iota
  | H : Dashboard.client_Create ?o ?w = _
    |- context [Dashboard.client_Create ?o ?w] => rewrite H; cbv beta iota
  | H : Dashboard.IsAlreadyExists ?e = _
    |- context [Dashboard.IsAlreadyExists ?e] => rewrite H; cbv beta iota
  end.

(** The calls [l], then the create of [o] in the world [w] answering as
    [H] says, then the line printing its error. *)
Tactic Notation "stopped_after" uconstr(l) constr(o) constr(w) constr(H) :=
  refine (ex_intro _ l (ex_intro _ o (ex_intro _ w (ex_intro _ _ _))));
  split; [apply list_elem_of_In; simpl; tauto |];
  split; [exact H | reflexivity].

(** Carry the presence of objects along the calls of a pass of the
    dashboards reconciler for [Instance]. *)
Ltac dashboard_learn H :=
  let T := type of H in
  lazymatch goal with
  | _ : T |- _ => fail
  | _ => pose proof H
  end.

Ltac dashboard_chase Instance :=
  repeat match goal with
  | H : Dashboard.client_Get _ _ _ = (_, None) |- _ =>
      dashboard_learn (Dashboard.fetched_present _ _ _ _ H)
  | H : Dashboard.client_Create _ _ = (_, None) |- _ =>
      first [ dashboard_learn
                (Dashboard.created_present Instance 0 _ _ _ _ _ _ eq_refl eq_refl H I)
            | dashboard_learn
                (Dashboard.created_present Instance 1 _ _ _ _ _ _ eq_refl eq_refl H I)
            | dashboard_learn
                (Dashboard.created_present Instance 2 _ _ _ _ _ _ eq_refl eq_refl H I) ]
  | H : Dashboard.client_Create _ _ = (_, Some ?e),
    Hb : Dashboard.IsAlreadyExists ?e = true |- _ =>
      first [ dashboard_learn
                (Dashboard.created_present Instance 0 _ _ _ _ _ _ eq_refl eq_refl H Hb)
            | dashboard_learn
                (Dashboard.created_present Instance 1 _ _ _ _ _ _ eq_refl eq_refl H Hb)
            | dashboard_learn
                (Dashboard.created_present Instance 2 _ _ _ _ _ _ eq_refl eq_refl H Hb) ]
  | Hp : Dashboard.present _ _ ?w, H : Dashboard.client_Get _ _ ?w = _ |- _ =>
      dashboard_learn (Dashboard.get_preserves _ _ _ _ _ _ _ Hp H)
  | Hp : Dashboard.present _ _ ?w, H : Dashboard.client_Create _ ?w = _ |- _ =>
      dashboard_learn (Dashboard.create_preserves _ _ _ _ _ _ Hp H)
  end.


Section DashboardExtras.

Context {W Obj : Type} {collaborators : Dashboard.Collaborators W Obj}.

Implicit Types (Instance : OpenSearchCluster) (st : Dashboard.State W Obj).

(** X10. When the deployment, the config map and the service can all be
    fetched, the pass returns nil after exactly these three fetches, in
    this order and all in the namespace named after the cluster: the
    deployment [<cluster>-dashboards], the config map
    [opensearch-dashboards], the service [<service>-dash-svc].  Nothing
    is created or printed. *)
Theorem Dashboard_all_present Instance st w1 w2 w3 :
  let clusterName := ClusterName (General (Spec Instance)) in
  let deployment := {| key_Name := clusterName +:+ "-dashboards";
                       key_Namespace := clusterName |} in
  let configMap := {| key_Name := "opensearch-dashboards";
                      key_Namespace := clusterName |} in
  let service := {| key_Name := ServiceName (General (Spec Instance)) +:+ "-dash-svc";
                    key_Namespace := clusterName |} in
  Dashboard.client_Get Dashboard.Deployment deployment (Dashboard.world st) = (w1, None) ->
  Dashboard.client_Get Dashboard.ConfigMap configMap w1 = (w2, None) ->
  Dashboard.client_Get Dashboard.Service service w2 = (w3, None) ->
  Dashboard.Reconcile Instance st =
    ({| Dashboard.world := w3;
        Dashboard.calls := Dashboard.calls st ++
          [ Dashboard.EGet Dashboard.Deployment deployment;
            Dashboard.EGet Dashboard.ConfigMap configMap;
            Dashboard.EGet Dashboard.Service service ] |},
     inr tt).
Proof.
  intros clusterName deployment configMap service Hd Hc Hs.
  subst clusterName deployment configMap service.
  destruct st as [w l]. simpl in Hd.
  dashboard_eval. dashboard_path. by rewrite <- !(assoc_L (++)).
Qed.

(** X11. The only errors the pass returns are those of a create, and
    never an already-exists error.  When the pass returns an error, the
    last two calls are the create that answered with this error and the
    line printing it; the error is not an already-exists error, and the
    pass stopped there, in the world that create left.  In particular a
    failing fetch is never reported. *)
Theorem Dashboard_error_is_create_error Instance st st' err :
  Dashboard.Reconcile Instance st = (st', inl err) ->
  Dashboard.IsAlreadyExists err = false /\
  exists l obj w msg,
    obj ∈ Dashboard.objects Instance /\
    Dashboard.client_Create obj w = (Dashboard.world st', Some err) /\
    Dashboard.calls st' = Dashboard.calls st ++ l ++
      [Dashboard.ECreate obj; Dashboard.EPrintln [err; msg]].
Proof.
  destruct st as [w l]. dashboard_eval. dashboard_cases;
    inversion 1; subst; try congruence; (split; [done |]); simpl;
    rewrite <- ?(assoc_L (++)); simpl;
    match goal with
    | H : Dashboard.client_Create ?o ?w0 = (_, Some _) |- _ =>
        first [ stopped_after [] o w0 H
              | stopped_after [_] o w0 H
              | stopped_after [_; _] o w0 H
              | stopped_after [_; _; _] o w0 H
              | stopped_after [_; _; _; _] o w0 H
              | stopped_after [_; _; _; _; _] o w0 H
              | stopped_after [_; _; _; _; _; _] o w0 H
              | stopped_after [_; _; _; _; _; _; _] o w0 H ]
    end.
Qed.

(** X12. An already-exists answer to a create is not a failure.  If
    the only errors creates answer with are already-exists errors, the
    pass returns nil whatever the fetches answer, and it has gone
    through all three objects: its fetches are the three keys, in
    order. *)
Theorem Dashboard_already_exists_tolerated Instance st :
  (forall obj w w' err,
     Dashboard.client_Create obj w = (w', Some err) ->
     Dashboard.IsAlreadyExists err = true) ->
  exists st' l,
    Dashboard.Reconcile Instance st = (st', inr tt) /\
    Dashboard.calls st' = Dashboard.calls st ++ l /\
    Dashboard.fetches l = Dashboard.keys Instance.
Proof.
  intros Hexists. destruct st as [w l]. dashboard_eval. dashboard_cases;
    try (match goal with
         | Hc : Dashboard.client_Create _ _ = (_, Some ?e),
           Hb : Dashboard.IsAlreadyExists ?e = false |- _ =>
             rewrite (Hexists _ _ _ _ Hc) in Hb; discriminate Hb
         end);
    eexists _, _; (split; [reflexivity |]); simpl;
    rewrite <- ?(assoc_L (++)); simpl; (split; [reflexivity |]); reflexivity.
Qed.


Section DashboardLawful.

Context {laws : Dashboard.StoreLaws W Obj}.

(** X14. On a store that keeps what it holds, a pass run again on the
    world left by a pass that returned nil returns nil, leaves that
    world as it is, and does nothing but fetch the three objects:
    nothing is created or printed the second time. *)
Theorem Dashboard_idempotent Instance st st1 st2 :
  Dashboard.Reconcile Instance st = (st1, inr tt) ->
  Dashboard.world st2 = Dashboard.world st1 ->
  Dashboard.Reconcile Instance st2 =
    ({| Dashboard.world := Dashboard.world st1;
        Dashboard.calls := Dashboard.calls st2 ++
          map (fun k => Dashboard.EGet k.1 k.2) (Dashboard.keys Instance) |},
     inr tt).
Proof.
  intros Hrun Hworld. destruct st1 as [w1 l1]. simpl in Hworld |- *.
  assert (Hpresent : Forall (fun k => Dashboard.present k.1 k.2 w1)
                       (Dashboard.keys Instance)).
  { revert Hrun. clear Hworld. destruct st as [w l].
    dashboard_eval. dashboard_cases; inversion 1; subst; simpl;
      dashboard_chase Instance;
      repeat (constructor; [done |]); constructor. }
  destruct st2 as [w2 l2]. simpl in Hworld. subst w2.
  unfold Dashboard.keys in Hpresent.
  apply Forall_cons in Hpresent as [Hd Hpresent].
  apply Forall_cons in Hpresent as [Hc Hpresent].
  apply Forall_cons in Hpresent as [Hs _].
  unfold Dashboard.present in Hd, Hc, Hs. simpl in Hd, Hc, Hs.
  dashboard_eval. rewrite Hd. cbv beta iota. rewrite Hc. cbv beta iota.
  rewrite Hs. cbv beta iota. simpl. by rewrite <- !(assoc_L (++)).
Qed.

End DashboardLawful.

End DashboardExtras.

(** ** The further properties on concrete worlds *)

Lemma HandleInterface_error_logged_witness :
  exists l msg keysAndValues,
    calls (HandleInterface MapStore.transportMissing "transport"
             (Some (MapStore.missingCert "demo-certs")) [] MapStore.init).1 =
      l ++ [ELogError "missing secret in spec" msg keysAndValues].
Proof.
  exact (HandleInterface_error_logged MapStore.transportMissing "transport"
           (Some (MapStore.missingCert "demo-certs")) [] MapStore.init _
           "missing secret in spec" (run_result _ _ eq_refl)).
Defined.

Lemma HandleInterface_ca_failure_aborts_witness :
  HandleInterface MapStore.transportOnly "transport" (Some MapStore.generated) []
    (QuotaWorld.start 0) =
    ({| world := 0; ctx := emptyContext;
        calls := [ ELogInfo "Generating certificates" [("interface", "transport")];
                   EGet {| key_Name := "demo-ca"; key_Namespace := "demo" |};
                   EGenerateCA "demo";
                   ELogError "quota exceeded" "Failed to create CA"
                     [("interface", "transport")] ] |},
     inl "quota exceeded") /\
  HandleInterface MapStore.transportOnly "transport" (Some MapStore.generated) []
    (QuotaWorld.start 1) =
    ({| world := 0; ctx := emptyContext;
        calls := [ ELogInfo "Generating certificates" [("interface", "transport")];
                   EGet {| key_Name := "demo-ca"; key_Namespace := "demo" |};
                   EGenerateCA "demo";
                   ECreate {| sec_Name := "demo-ca"; sec_Namespace := "demo";
                              sec_Data := ∅ |};
                   ELogError "quota exceeded" "Failed to store CA in secret"
                     [("interface", "transport")] ] |},
     inl "quota exceeded").
Proof.
  split.
  - exact (proj1 (HandleInterface_ca_failure_aborts MapStore.transportOnly "transport"
                    MapStore.generated [] (QuotaWorld.start 0) 0 "not found"
                    eq_refl eq_refl)
             0 "quota exceeded" eq_refl).
  - exact (proj2 (HandleInterface_ca_failure_aborts MapStore.transportOnly "transport"
                    MapStore.generated [] (QuotaWorld.start 1) 1 "not found"
                    eq_refl eq_refl)
             0 "demo" 0 "quota exceeded" eq_refl eq_refl).
Defined.

Lemma HandleInterface_new_ca_keeps_node_secret_witness :
  exists st' nodesDn',
    HandleInterface MapStore.transportOnly "transport" (Some MapStore.generated) []
      (MapStore.start MapStore.nodeOnlyStore) = (st', inr nodesDn') /\
    calls st' =
      [ ELogInfo "Generating certificates" [("interface", "transport")];
        EGet {| key_Name := "demo-ca"; key_Namespace := "demo" |};
        EGenerateCA "demo";
        ECreate MapStore.demoCASecret;
        EGet {| key_Name := "demo-transport-cert"; key_Namespace := "demo" |} ].
Proof.
  destruct (HandleInterface_new_ca_keeps_node_secret MapStore.transportOnly "transport"
              MapStore.generated [] (MapStore.start MapStore.nodeOnlyStore)
              MapStore.nodeOnlyStore "not found" MapStore.nodeOnlyStore MapStore.demoCA
              (<[MapStore.storeKey "demo-ca" "demo" := MapStore.demoCASecret]>
                 MapStore.nodeOnlyStore)
              (<[MapStore.storeKey "demo-ca" "demo" := MapStore.demoCASecret]>
                 MapStore.nodeOnlyStore)
              {| sec_Name := "demo-transport-cert"; sec_Namespace := "demo";
                 sec_Data := MapStore.secretData MapStore.demoNodeCert MapStore.demoCA |}
              eq_refl)
    as (st' & nodesDn' & Hrun & _ & Hcalls).
  - simpl. unfold MapStore.get, MapStore.nodeOnlyStore. simpl.
    rewrite lookup_insert_ne by discriminate. by rewrite lookup_empty.
  - reflexivity.
  - simpl. unfold MapStore.create, MapStore.nodeOnlyStore. simpl.
    rewrite lookup_insert_ne by discriminate. by rewrite lookup_empty.
  - simpl. unfold MapStore.get, MapStore.nodeOnlyStore. simpl.
    rewrite lookup_insert_ne by discriminate. by rewrite lookup_insert_eq.
  - exists st', nodesDn'. split; [exact Hrun | exact Hcalls].
Defined.

Lemma HandleInterface_signs_with_stored_ca_witness :
  exists st' nodesDn',
    HandleInterface MapStore.transportOnly "transport" (Some MapStore.generated) []
      (MapStore.start MapStore.demoStore) = (st', inr nodesDn') /\
    calls st' =
      [ ELogInfo "Generating certificates" [("interface", "transport")];
        EGet {| key_Name := "demo-ca"; key_Namespace := "demo" |};
        EGet {| key_Name := "demo-transport-cert"; key_Namespace := "demo" |};
        ESign (MapStore.caFromSecret (MapStore.secretDataCA MapStore.demoCA)) "demo"
          ["demo"; "demo.demo"; "demo.demo.svc"; "demo.demo.svc.cluster.local"];
        ECreate {| sec_Name := "demo-transport-cert"; sec_Namespace := "demo";
                   sec_Data := MapStore.secretData MapStore.demoNodeCert
                                 (MapStore.caFromSecret
                                    (MapStore.secretDataCA MapStore.demoCA)) |} ].
Proof.
  destruct (HandleInterface_signs_with_stored_ca MapStore.transportOnly "transport"
              MapStore.generated [] (MapStore.start MapStore.demoStore)
              MapStore.demoStore MapStore.demoCASecret MapStore.demoStore "not found"
              MapStore.demoStore MapStore.demoNodeCert
              (MapStore.create
                 {| sec_Name := "demo-transport-cert"; sec_Namespace := "demo";
                    sec_Data := MapStore.secretData MapStore.demoNodeCert
                                  (MapStore.caFromSecret
                                     (MapStore.secretDataCA MapStore.demoCA)) |}
                 MapStore.demoStore).1
              eq_refl)
    as (st' & nodesDn' & Hrun & _ & Hcalls).
  - simpl. unfold MapStore.get, MapStore.demoStore. simpl.
    by rewrite lookup_insert_eq.
  - simpl. unfold MapStore.get, MapStore.demoStore. simpl.
    rewrite lookup_insert_ne by discriminate. by rewrite lookup_empty.
  - reflexivity.
  - refine (run_result _ _ _). simpl. unfold MapStore.create, MapStore.demoStore. simpl.
    rewrite lookup_insert_ne by discriminate. by rewrite lookup_empty.
  - exists st', nodesDn'. split; [exact Hrun | exact Hcalls].
Defined.

Lemma Reconcile_http_error_witness :
  exists st2,
    Reconcile MapStore.httpMissing MapStore.init = (st2, inl "missing secret in spec") /\
    List.length (Volumes (ctx st2)) = 3 /\
    OpenSearchConfig (ctx st2) !! "plugins.security.allow_unsafe_democertificates" = None.
Proof.
  pose (run1 := HandleInterface MapStore.httpMissing "transport"
                  (Some (MapStore.external "demo-transport-certs")) [] MapStore.init).
  pose (run2 := HandleInterface MapStore.httpMissing "http"
                  (Some (MapStore.missingCert "demo-http-certs")) [] run1.1).
  destruct (Reconcile_http_error MapStore.httpMissing _ _ MapStore.init run1.1 []
              run2.1 "missing secret in spec" eq_refl eq_refl)
    as (Hrun & Hctx & _ & Hkey).
  - refine (run_result _ _ _). vm_compute. reflexivity.
  - refine (run_result _ _ _). vm_compute. reflexivity.
  - exists run2.1. split; [exact Hrun |]. split; [| exact Hkey].
    vm_compute. reflexivity.
Defined.

Lemma Reconcile_interface_config_witness :
  Forall (fun kv => OpenSearchConfig (ctx (Reconcile MapStore.demo MapStore.init).1)
                      !! kv.1 = Some kv.2)
    (interfaceConfig "http").
Proof.
  refine (proj1 (proj2 (Reconcile_interface_config MapStore.demo _ _ MapStore.init _
                          eq_refl eq_refl _)) _).
  - run_known.
  - by eexists.
Defined.

Lemma Reconcile_volume_names_witness :
  NoDup (map vol_Name (Volumes (ctx (Reconcile MapStore.demo MapStore.init).1))).
Proof.
  refine (proj2 (Reconcile_volume_names MapStore.demo MapStore.init _ (inr tt) _)
            eq_refl eq_refl).
  run_known.
Defined.

Lemma Reconcile_external_only_witness :
  world (Reconcile MapStore.externalOnly MapStore.init).1 = ∅ /\
  exists l,
    calls (Reconcile MapStore.externalOnly MapStore.init).1 = l /\
    Forall (fun e => is_log e = true) l.
Proof.
  refine (Reconcile_external_only MapStore.externalOnly MapStore.init _ (inr tt) _ _).
  - intros security tlsConfig config Hsec Htls Hconfig.
    injection Hsec as <-. injection Htls as <-.
    destruct Hconfig as [Hconfig | Hconfig]; injection Hconfig as <-; reflexivity.
  - run_known.
Defined.

Lemma Reconcile_generates_one_ca_witness :
  exists l,
    calls (Reconcile MapStore.bothGenerated MapStore.init).1 = l /\
    List.length (List.filter is_generate_ca l) <= 1.
Proof.
  refine (Reconcile_generates_one_ca (StoreLaws0 := MapStore_laws)
            MapStore.bothGenerated MapStore.init _ (inr tt) _).
  run_known.
Defined.

Lemma Dashboard_all_present_witness :
  Dashboard.Reconcile Dashboard.ListStore.demo
    (Dashboard.ListStore.start Dashboard.ListStore.allThree) =
    ({| Dashboard.world := Dashboard.ListStore.allThree;
        Dashboard.calls :=
          [ Dashboard.EGet Dashboard.Deployment
              {| key_Name := "demo-dashboards"; key_Namespace := "demo" |};
            Dashboard.EGet Dashboard.ConfigMap
              {| key_Name := "opensearch-dashboards"; key_Namespace := "demo" |};
            Dashboard.EGet Dashboard.Service
              {| key_Name := "demo-svc-dash-svc"; key_Namespace := "demo" |} ] |},
     inr tt).
Proof.
  exact (Dashboard_all_present Dashboard.ListStore.demo
           (Dashboard.ListStore.start Dashboard.ListStore.allThree)
           Dashboard.ListStore.allThree Dashboard.ListStore.allThree
           Dashboard.ListStore.allThree eq_refl eq_refl eq_refl).
Defined.

Lemma Dashboard_error_is_create_error_witness :
  Dashboard.IsAlreadyExists (W := nat) (Obj := Dashboard.ListStore.Obj) "quota exceeded"
    = false /\
  exists l obj w msg,
    obj ∈ Dashboard.objects (W := nat) Dashboard.ListStore.demo /\
    Dashboard.client_Create obj w = (0, Some "quota exceeded") /\
    Dashboard.calls
      (Dashboard.Reconcile Dashboard.ListStore.demo (Dashboard.QuotaWorld.start 1)).1 =
      l ++ [Dashboard.ECreate obj; Dashboard.EPrintln ["quota exceeded"; msg]].
Proof.
  exact (Dashboard_error_is_create_error Dashboard.ListStore.demo
           (Dashboard.QuotaWorld.start 1) _ "quota exceeded"
           (run_result _ _ eq_refl)).
Defined.

(** In the list-backed world a create fails only on an object that is
    already there. *)
Lemma ListStore_create_error (obj : Dashboard.ListStore.Obj)
    (w w' : list Dashboard.ListStore.Obj) err :
  Dashboard.client_Create obj w = (w', Some err) ->
  Dashboard.IsAlreadyExists (W := list Dashboard.ListStore.Obj) err = true.
Proof.
  simpl. unfold Dashboard.ListStore.create.
  destruct (Dashboard.ListStore.stored obj w); by inversion 1.
Qed.

(** With a rival writer too, the only error of a create is
    already-exists. *)
Lemma RivalStore_create_error (obj : Dashboard.ListStore.Obj)
    (w w' : Dashboard.RivalStore.World) err :
  Dashboard.client_Create obj w = (w', Some err) ->
  Dashboard.IsAlreadyExists (W := Dashboard.RivalStore.World) err = true.
Proof.
  simpl. unfold Dashboard.RivalStore.create, Dashboard.ListStore.create.
  destruct (Dashboard.ListStore.stored obj (Dashboard.RivalStore.held w)); by inversion 1.
Qed.

(** The pass of [demo] against a rival writer, started on an empty
    store: each of the three fetches fails, each of the three creates
    that follow answers already-exists, and the pass prints its three
    success lines and returns nil. *)
Lemma Dashboard_already_exists_tolerated_witness :
  (Dashboard.client_Get Dashboard.Deployment
     {| key_Name := "demo-dashboards"; key_Namespace := "demo" |}
     (Dashboard.RivalStore.Racing []) =
     (Dashboard.RivalStore.Racing [Dashboard.ListStore.demoDeployment], Some "not found") /\
   Dashboard.client_Create Dashboard.ListStore.demoDeployment
     (Dashboard.RivalStore.Racing [Dashboard.ListStore.demoDeployment]) =
     (Dashboard.RivalStore.Racing [Dashboard.ListStore.demoDeployment],
      Some "already exists")) /\
  (Dashboard.client_Get Dashboard.ConfigMap
     {| key_Name := "opensearch-dashboards"; key_Namespace := "demo" |}
     (Dashboard.RivalStore.Racing [Dashboard.ListStore.demoDeployment]) =
     (Dashboard.RivalStore.Racing
        [Dashboard.ListStore.demoConfigMap; Dashboard.ListStore.demoDeployment],
      Some "not found") /\
   Dashboard.client_Create Dashboard.ListStore.demoConfigMap
     (Dashboard.RivalStore.Racing
        [Dashboard.ListStore.demoConfigMap; Dashboard.ListStore.demoDeployment]) =
     (Dashboard.RivalStore.Racing
        [Dashboard.ListStore.demoConfigMap; Dashboard.ListStore.demoDeployment],
      Some "already exists")) /\
  (Dashboard.client_Get Dashboard.Service
     {| key_Name := "demo-svc-dash-svc"; key_Namespace := "demo" |}
     (Dashboard.RivalStore.Racing
        [Dashboard.ListStore.demoConfigMap; Dashboard.ListStore.demoDeployment]) =
     (Dashboard.RivalStore.Racing
        [Dashboard.ListStore.demoService; Dashboard.ListStore.demoConfigMap;
         Dashboard.ListStore.demoDeployment],
      Some "not found") /\
   Dashboard.client_Create Dashboard.ListStore.demoService
     (Dashboard.RivalStore.Racing
        [Dashboard.ListStore.demoService; Dashboard.ListStore.demoConfigMap;
         Dashboard.ListStore.demoDeployment]) =
     (Dashboard.RivalStore.Racing
        [Dashboard.ListStore.demoService; Dashboard.ListStore.demoConfigMap;
         Dashboard.ListStore.demoDeployment],
      Some "already exists")) /\
  exists st' l,
    Dashboard.Reconcile Dashboard.ListStore.demo (Dashboard.RivalStore.start []) =
      (st', inr tt) /\
    Dashboard.calls st' = l /\
    Dashboard.fetches l = Dashboard.keys Dashboard.ListStore.demo /\
    l = [ Dashboard.EGet Dashboard.Deployment
            {| key_Name := "demo-dashboards"; key_Namespace := "demo" |};
          Dashboard.ECreate Dashboard.ListStore.demoDeployment;
          Dashboard.EPrintln
            ["Opensearch-Dashboard Deployment Created successfully - ";
             "name : "; "demo-dashboards"];
          Dashboard.EGet Dashboard.ConfigMap
            {| key_Name := "opensearch-dashboards"; key_Namespace := "demo" |};
          Dashboard.ECreate Dashboard.ListStore.demoConfigMap;
          Dashboard.EPrintln
            ["Opensearch-Dashboard Cm Created successfully"; "name";
             "opensearch-dashboards"];
          Dashboard.EGet Dashboard.Service
            {| key_Name := "demo-svc-dash-svc"; key_Namespace := "demo" |};
          Dashboard.ECreate Dashboard.ListStore.demoService;
          Dashboard.EPrintln
            ["Opensearch-Dashboard service Created successfully"; "name";
             "demo-svc-dash-svc"] ].
Proof.
  split; [split; reflexivity |].
  split; [split; reflexivity |].
  split; [split; reflexivity |].
  destruct (Dashboard_already_exists_tolerated Dashboard.ListStore.demo
              (Dashboard.RivalStore.start []) RivalStore_create_error)
    as (st' & l & Hrun & Hcalls & Hfetches).
  simpl in Hcalls. subst l.
  exists st', (Dashboard.calls st').
  split; [exact Hrun |]. split; [reflexivity |]. split; [exact Hfetches |].
  apply (f_equal (fun x => Dashboard.calls x.1)) in Hrun.
  symmetry. exact Hrun.
Defined.


Lemma ListStore_same_refl (o : Dashboard.ListStore.Obj) : Dashboard.ListStore.same o o = true.
Proof.
  unfold Dashboard.ListStore.same.
  destruct (Dashboard.ListStore.kind o); by rewrite !String.eqb_refl.
Qed.

(** The list-backed world keeps what it holds, and its builders build
    each object under the key it is fetched by. *)
Lemma ListStore_laws :
  Dashboard.StoreLaws (list Dashboard.ListStore.Obj) Dashboard.ListStore.Obj.
Proof.
  split.
  - intros kind key w w'. unfold Dashboard.present. simpl.
    unfold Dashboard.ListStore.get.
    destruct (Dashboard.ListStore.stored _ w) eqn:Hstored; inversion 1; subst.
    by rewrite Hstored.
  - intros Instance i kind key obj w w' r Hkey Hobj. unfold Dashboard.present. simpl.
    unfold Dashboard.ListStore.get, Dashboard.ListStore.create.
    destruct i as [| [| [| i]]]; simpl in Hkey, Hobj; simplify_eq/=;
      (destruct (Dashboard.ListStore.stored _ w) eqn:Hstored; inversion 1; subst;
       intros _;
       [ by rewrite Hstored
       | unfold Dashboard.ListStore.stored; simpl;
         by rewrite ListStore_same_refl ]).
  - intros kind key kind' key' w w' r Hp. simpl. unfold Dashboard.ListStore.get.
    destruct (Dashboard.ListStore.stored _ w); inversion 1; by subst.
  - intros kind key obj w w' r. unfold Dashboard.present. simpl.
    unfold Dashboard.ListStore.get, Dashboard.ListStore.create.
    destruct (Dashboard.ListStore.stored _ w) eqn:Hkey; [| done]. intros _.
    destruct (Dashboard.ListStore.stored obj w); inversion 1; subst;
      [by rewrite Hkey |].
    unfold Dashboard.ListStore.stored in *. simpl. by rewrite Hkey, orb_true_r.
Qed.

Lemma Dashboard_idempotent_witness :
  Dashboard.Reconcile Dashboard.ListStore.demo
    (Dashboard.ListStore.start
       (Dashboard.world
          (Dashboard.Reconcile Dashboard.ListStore.demo (Dashboard.ListStore.start [])).1)) =
    ({| Dashboard.world :=
          Dashboard.world
            (Dashboard.Reconcile Dashboard.ListStore.demo (Dashboard.ListStore.start [])).1;
        Dashboard.calls :=
          [ Dashboard.EGet Dashboard.Deployment
              {| key_Name := "demo-dashboards"; key_Namespace := "demo" |};
            Dashboard.EGet Dashboard.ConfigMap
              {| key_Name := "opensearch-dashboards"; key_Namespace := "demo" |};
            Dashboard.EGet Dashboard.Service
              {| key_Name := "demo-svc-dash-svc"; key_Namespace := "demo" |} ] |},
     inr tt).
Proof.
  exact (Dashboard_idempotent (laws := ListStore_laws) Dashboard.ListStore.demo
           (Dashboard.ListStore.start []) _
           (Dashboard.ListStore.start
              (Dashboard.world
                 (Dashboard.Reconcile Dashboard.ListStore.demo
                    (Dashboard.ListStore.start [])).1))
           (run_result _ _ eq_refl) eq_refl).
Defined.
